(** * Shopping-list generation (src/lib/shopping-list-generator.ts)

    A shallow embedding of [generateShoppingList] and of the part of the
    Supabase store it talks to, followed by the properties of the
    aggregation and of the materialisation that the specification states.

    Conventions.
    - JavaScript strings are [string]; only equality, concatenation and
      splitting on the one-character separator are used by the code.
    - JavaScript numbers are kept abstract: the model is written over a
      carrier [number] with [zero], [add] and [mul], and no algebraic law
      is assumed of them, so every general theorem holds for IEEE doubles
      as well as for exact arithmetic.  Concrete runs instantiate the
      carrier with [Z]; one of them uses doubles.
    - [null] is [None].  *)

From Stdlib Require Import String Ascii List Bool Arith ZArith Lia Permutation.
From Stdlib Require Import PrimFloat.
From Stdlib Require Import DecimalString DecimalNat.
Import ListNotations.
Local Open Scope string_scope.
Local Open Scope list_scope.

(** ** Strings as the code uses them *)

Module Js.

(** The separator of the aggregation key, the character of ["|"]. *)
Definition bar : ascii := "|"%char.

(** [s.split("|")]: the segments of [s] between separators; never empty. *)
Fixpoint split (sep : ascii) (s : string) : list string :=
  match s with
  | EmptyString => [EmptyString]
  | String c rest =>
      if Ascii.eqb c sep then EmptyString :: split sep rest
      else match split sep rest with
           | seg :: segs => String c seg :: segs
           | [] => [String c EmptyString]
           end
  end.

(** Whether the character occurs in the string ([s.includes("|")]). *)
Fixpoint contains (sep : ascii) (s : string) : bool :=
  match s with
  | EmptyString => false
  | String c rest => Ascii.eqb c sep || contains sep rest
  end.

(** The part of [s] before the first separator (all of [s] if none). *)
Fixpoint before (sep : ascii) (s : string) : string :=
  match s with
  | EmptyString => EmptyString
  | String c rest => if Ascii.eqb c sep then EmptyString else String c (before sep rest)
  end.

(** String conversion inside a template literal: [`${u}`] for a value
    that is a string or [null]. *)
Definition template (u : option string) : string :=
  match u with
  | Some s => s
  | None => "null"
  end.

(** Truthiness of a string-or-null value: [null] and [""] are falsy. *)
Definition truthy (u : option string) : bool :=
  match u with
  | Some EmptyString => false
  | Some _ => true
  | None => false
  end.

(** [data || []] for a value that is an array or [null]. *)
Definition or_empty {A : Type} (data : option (list A)) : list A :=
  match data with
  | Some l => l
  | None => []
  end.

End Js.

(** ** Calendar dates

    The function receives its two dates as text and the store returns
    [meal_date] as text, both in the form [YYYY-MM-DD]; the model orders
    them as strings.  This module gives the form and the order of the
    calendar, to show that the two orders are the same. *)

Module Iso.

Record Date : Type := mkDate {
  year : nat;
  month : nat;
  day : nat
}.

Definition digit (n : nat) : ascii := ascii_of_nat (48 + n).

Definition two_digits (n : nat) : string :=
  String (digit (n / 10)) (String (digit (n mod 10)) EmptyString).

Definition four_digits (n : nat) : string :=
  (two_digits (n / 100) ++ two_digits (n mod 100))%string.

(** [YYYY-MM-DD]. *)
Definition iso (d : Date) : string :=
  (four_digits (year d) ++ "-" ++ two_digits (month d)
   ++ "-" ++ two_digits (day d))%string.

(** Year, then month, then day. *)
Definition chronological (d1 d2 : Date) : comparison :=
  match Nat.compare (year d1) (year d2) with
  | Eq =>
      match Nat.compare (month d1) (month d2) with
      | Eq => Nat.compare (day d1) (day d2)
      | c => c
      end
  | c => c
  end.

Definition on_or_before (d1 d2 : Date) : bool :=
  match chronological d1 d2 with
  | Gt => false
  | _ => true
  end.

(** A date that fits the form: four digits of year, two of month and day. *)
Definition fits (d : Date) : Prop :=
  year d < 100 * 100 /\ month d < 100 /\ day d < 100.

End Iso.

(** ** Numbers

    The carrier of JavaScript numbers and the three things the code does
    with them: the literal [0], [+] (through [+=]) and [*]. *)

Class JsNumber (number : Type) : Type := {
  zero : number;
  add : number -> number -> number;
  mul : number -> number -> number
}.

(** Exact integers, used for the concrete runs. *)
#[export] Instance Z_number : JsNumber Z := {
  zero := 0%Z;
  add := Z.add;
  mul := Z.mul
}.

(** IEEE 754 doubles, the numbers of JavaScript. *)
#[export] Instance double_number : JsNumber float := {
  zero := 0%float;
  add := PrimFloat.add;
  mul := PrimFloat.mul
}.

(** ** Values that do not involve numbers *)

(** What the function can throw: [new Error(message)], the error object
    of a failed store request, or the [TypeError] of a property read on
    [null]. *)
Inductive Error : Type :=
| JsError (message : string)
| StoreError (code : string)
| TypeError.

Record User : Type := mkUser {
  id : string
}.

(** [shopping_lists]: the object passed to [insert], and the stored row
    with the identifier the store gave it. *)
Record NewShoppingList : Type := mkNewList {
  user_id : string;
  meal_plan_id : string;
  name : string
}.

Record ShoppingListRow : Type := mkListRow {
  list_id : string;
  list_fields : NewShoppingList
}.

(** The destructured result of a store request: [{ data, error }]. *)
Record Response (A : Type) : Type := mkResponse {
  data : option A;
  error : option Error
}.
Arguments mkResponse {A} _ _.
Arguments data {A} _.
Arguments error {A} _.

(** The two ways a computation ends. *)
Inductive Outcome (A : Type) : Type :=
| Returned (a : A)
| Thrown (e : Error).
Arguments Returned {A} _.
Arguments Thrown {A} _.

(** The value returned on success. *)
Record Summary : Type := mkSummary {
  success : bool;
  listId : string;
  itemCount : nat
}.

(** ** The aggregation (lines 25-59 of the source) *)

Section Model.

Context {number : Type} `{JsNumber number}.

(** Numeric conversion of an operand of [*] that is a number or [null]. *)
Definition ToNumber (v : option number) : number :=
  match v with
  | Some x => x
  | None => zero
  end.

(** A row of [recipe_ingredients] as selected:
    [select("ingredient_name, quantity, unit")].  The name column is
    [TEXT NOT NULL]; quantity and unit are nullable. *)
Record RecipeIngredient : Type := mkIngredient {
  ingredient_name : string;
  quantity : option number;
  unit : option string
}.

(** A row of [meal_plan_entries] as selected:
    [select("recipe_id, servings")], both nullable. *)
Record MealEntry : Type := mkEntry {
  recipe_id : option string;
  servings : option number
}.

(** The value stored under a key of [ingredients]. *)
Record Bucket : Type := mkBucket {
  bucket_quantity : number;
  bucket_unit : option string
}.

(** The object [ingredients], as its own properties in insertion order
    (the order [Object.entries] follows for keys that are not array
    indices; every key here contains the separator, so none is an array
    index and none is a property inherited from [Object.prototype]). *)
Definition Dict : Type := list (string * Bucket).

(** [ingredients[key]]. *)
Fixpoint get (key : string) (d : Dict) : option Bucket :=
  match d with
  | [] => None
  | (k, b) :: rest => if String.eqb k key then Some b else get key rest
  end.

(** [ingredients[key] = b]: an existing property keeps its place, a new
    one goes last. *)
Fixpoint set (key : string) (b : Bucket) (d : Dict) : Dict :=
  match d with
  | [] => [(key, b)]
  | (k, b0) :: rest =>
      if String.eqb k key then (k, b) :: rest else (k, b0) :: set key b rest
  end.

(** [`${ingredient.ingredient_name}|${ingredient.unit}`]. *)
Definition key_of (ingredient : RecipeIngredient) : string :=
  ingredient_name ingredient ++ "|" ++ Js.template (unit ingredient).

(** The body of the inner loop, for one ingredient of an entry with the
    given servings. *)
Definition accumulate (entry_servings : option number) (ingredients : Dict)
    (ingredient : RecipeIngredient) : Dict :=
  let key := key_of ingredient in
  let ingredients1 :=
    match get key ingredients with
    | None => set key (mkBucket zero (unit ingredient)) ingredients
    | Some _ => ingredients
    end in
  match get key ingredients1 with
  | Some b =>
      set key
        (mkBucket
           (add (bucket_quantity b)
                (mul (ToNumber (quantity ingredient)) (ToNumber entry_servings)))
           (bucket_unit b))
        ingredients1
  | None => ingredients1
  end.

(** The inner loop: [for (const ingredient of recipeIngredients || [])]. *)
Definition accumulate_recipe (entry_servings : option number)
    (ingredients : Dict) (recipeIngredients : list RecipeIngredient) : Dict :=
  fold_left (accumulate entry_servings) recipeIngredients ingredients.

(** An element of [shoppingListItems]. *)
Record Item : Type := mkItem {
  product_name : string;
  item_quantity : number;
  item_unit : option string;
  is_purchased : bool
}.

(** The callback of [Object.entries(ingredients).map]: the name is the
    first segment of the key, the unit is the one stored in the bucket. *)
Definition to_item (kv : string * Bucket) : Item :=
  let (key, value) := kv in
  mkItem (hd EmptyString (Js.split Js.bar key))
         (bucket_quantity value) (bucket_unit value) false.

Definition shoppingListItems (ingredients : Dict) : list Item :=
  map to_item ingredients.

(** [!entry.recipe_id], the test of the [continue]. *)
Definition skipped (entry : MealEntry) : bool :=
  negb (Js.truthy (recipe_id entry)).

(** The two loops as a function of the fetched data: the entries in the
    order of the outer loop, each with the ingredient rows fetched for it,
    starting from a given state of [ingredients]. *)
Definition aggregate_from (ingredients : Dict)
    (fetched : list (MealEntry * list RecipeIngredient)) : Dict :=
  fold_left
    (fun acc ef =>
       if skipped (fst ef) then acc
       else accumulate_recipe (servings (fst ef)) acc (snd ef))
    fetched ingredients.

(** From [const ingredients = {}]. *)
Definition aggregate (fetched : list (MealEntry * list RecipeIngredient)) : Dict :=
  aggregate_from [] fetched.

(** ** The store and the session

    The Supabase client is an external collaborator.  It is modelled by a
    world that holds the session, the four tables the function touches (as
    the rows the session may see), the log of the requests issued so far,
    each with the error it came back with if it failed, what was written
    to the console, and two oracles: [faults] says whether the n-th
    request fails and with which error object, and [gen_random_uuid] gives
    the identifier the store assigns to the n-th shopping list.  A failed
    request changes no table.  A query without [order] returns the rows
    in the order of the table. *)

(** [meal_plan_entries]: the columns the query filters on or selects. *)
Record MealPlanEntryRow : Type := mkEntryRow {
  entry_meal_plan_id : string;
  entry_recipe_id : option string;
  entry_meal_date : string;
  entry_servings : option number
}.

(** [recipe_ingredients]. *)
Record RecipeIngredientRow : Type := mkIngredientRow {
  row_recipe_id : string;
  row_ingredient_name : string;
  row_quantity : option number;
  row_unit : option string
}.

(** [shopping_list_items]: [{ ...item, shopping_list_id }]. *)
Record ShoppingListItemRow : Type := mkItemRow {
  item_fields : Item;
  shopping_list_id : string
}.

(** The requests the function sends. *)
Inductive Request : Type :=
| GetUser
| SelectMealPlanEntries (mealPlanId startDate endDate : string)
| SelectRecipeIngredients (recipeId : string)
| InsertShoppingList (row : NewShoppingList)
| InsertShoppingListItems (rows : list ShoppingListItemRow).

Definition is_read (r : Request) : bool :=
  match r with
  | SelectMealPlanEntries _ _ _ | SelectRecipeIngredients _ => true
  | _ => false
  end.

Definition is_write (r : Request) : bool :=
  match r with
  | InsertShoppingList _ | InsertShoppingListItems _ => true
  | _ => false
  end.

Record World : Type := mkWorld {
  session : option User;
  meal_plan_entries : list MealPlanEntryRow;
  recipe_ingredients : list RecipeIngredientRow;
  shopping_lists : list ShoppingListRow;
  shopping_list_items : list ShoppingListItemRow;
  requests : list (Request * option Error);
  console : list Error;
  faults : nat -> option Error;
  gen_random_uuid : nat -> string
}.

(** *** Computations: state that survives a throw *)

Definition M (A : Type) : Type := World -> Outcome A * World.

Definition ret {A : Type} (a : A) : M A := fun w => (Returned a, w).

Definition throw {A : Type} (e : Error) : M A := fun w => (Thrown e, w).

Definition bind {A B : Type} (c : M A) (k : A -> M B) : M B :=
  fun w =>
    match c w with
    | (Returned a, w1) => k a w1
    | (Thrown e, w1) => (Thrown e, w1)
    end.

(** [try { c } catch (error) { handler }]. *)
Definition try_catch {A : Type} (c : M A) (handler : Error -> M A) : M A :=
  fun w =>
    match c w with
    | (Returned a, w1) => (Returned a, w1)
    | (Thrown e, w1) => handler e w1
    end.

Notation "x <- c ;; k" := (bind c (fun x => k))
  (at level 61, c at next level, right associativity).

(** *** The requests *)

(** The fault, if any, of the request about to be sent. *)
Definition fault_now (w : World) : option Error :=
  faults w (length (requests w)).

(** The world with more requests in its log. *)
Definition logged (w : World) (new : list (Request * option Error)) : World :=
  mkWorld (session w) (meal_plan_entries w) (recipe_ingredients w)
          (shopping_lists w) (shopping_list_items w)
          (requests w ++ new)
          (console w) (faults w) (gen_random_uuid w).

(** Sending a request: it is logged with its fault. *)
Definition log (r : Request) (w : World) : World :=
  logged w [(r, fault_now w)].

(** A read: logged, then either the fault or the rows. *)
Definition read {A : Type} (r : Request) (rows : World -> A) : M (Response A) :=
  fun w =>
    match fault_now w with
    | Some e => (Returned (mkResponse None (Some e)), log r w)
    | None => (Returned (mkResponse (Some (rows w)) None), log r w)
    end.

(** [supabase.auth.getUser()]: [data.user] is the session's user, or
    [null] when there is none or the request failed; the code does not
    look at the error. *)
Definition auth_getUser : M (option User) :=
  fun w =>
    match fault_now w with
    | Some _ => (Returned None, log GetUser w)
    | None => (Returned (session w), log GetUser w)
    end.

(** The filter of the entries query: [eq("meal_plan_id", mealPlanId)],
    [gte("meal_date", startDate)], [lte("meal_date", endDate)].  Dates are
    [YYYY-MM-DD] strings, ordered as strings. *)
Definition selected (mealPlanId startDate endDate : string)
    (row : MealPlanEntryRow) : bool :=
  String.eqb (entry_meal_plan_id row) mealPlanId
  && String.leb startDate (entry_meal_date row)
  && String.leb (entry_meal_date row) endDate.

Definition entry_columns (row : MealPlanEntryRow) : MealEntry :=
  mkEntry (entry_recipe_id row) (entry_servings row).

Definition select_meal_plan_entries (mealPlanId startDate endDate : string)
    : M (Response (list MealEntry)) :=
  read (SelectMealPlanEntries mealPlanId startDate endDate)
       (fun w => map entry_columns
                   (filter (selected mealPlanId startDate endDate)
                           (meal_plan_entries w))).

Definition ingredient_columns (row : RecipeIngredientRow) : RecipeIngredient :=
  mkIngredient (row_ingredient_name row) (row_quantity row) (row_unit row).

Definition ingredients_of (recipeId : string)
    (table : list RecipeIngredientRow) : list RecipeIngredient :=
  map ingredient_columns
      (filter (fun row => String.eqb (row_recipe_id row) recipeId) table).

Definition select_recipe_ingredients (recipeId : string)
    : M (Response (list RecipeIngredient)) :=
  read (SelectRecipeIngredients recipeId)
       (fun w => ingredients_of recipeId (recipe_ingredients w)).

(** [from("shopping_lists").insert(row).select("id").single()]. *)
Definition insert_shopping_list (row : NewShoppingList) : M (Response string) :=
  fun w =>
    let w1 := log (InsertShoppingList row) w in
    match fault_now w with
    | Some e => (Returned (mkResponse None (Some e)), w1)
    | None =>
        let newId := gen_random_uuid w (length (shopping_lists w)) in
        (Returned (mkResponse (Some newId) None),
         mkWorld (session w1) (meal_plan_entries w1) (recipe_ingredients w1)
                 (shopping_lists w1 ++ [mkListRow newId row])
                 (shopping_list_items w1)
                 (requests w1) (console w1) (faults w1) (gen_random_uuid w1))
    end.

(** [from("shopping_list_items").insert(rows)]; only [error] is read. *)
Definition insert_shopping_list_items (rows : list ShoppingListItemRow)
    : M (Response Datatypes.unit) :=
  fun w =>
    let w1 := log (InsertShoppingListItems rows) w in
    match fault_now w with
    | Some e => (Returned (mkResponse None (Some e)), w1)
    | None =>
        (Returned (mkResponse (Some tt) None),
         mkWorld (session w1) (meal_plan_entries w1) (recipe_ingredients w1)
                 (shopping_lists w1)
                 (shopping_list_items w1 ++ rows)
                 (requests w1) (console w1) (faults w1) (gen_random_uuid w1))
    end.

(** [console.error("Error generating shopping list:", error)]. *)
Definition printed (e : Error) (w : World) : World :=
  mkWorld (session w) (meal_plan_entries w) (recipe_ingredients w)
          (shopping_lists w) (shopping_list_items w)
          (requests w) (console w ++ [e]) (faults w) (gen_random_uuid w).

Definition console_error (e : Error) : M Datatypes.unit :=
  fun w => (Returned tt, printed e w).

(** ** [generateShoppingList] *)

(** The outer loop: [for (const entry of mealEntries || [])], with the
    fetch of each entry's ingredients and the throw on its error. *)
Fixpoint for_entries (mealEntries : list MealEntry) (ingredients : Dict)
    : M Dict :=
  match mealEntries with
  | [] => ret ingredients
  | entry :: rest =>
      if skipped entry then for_entries rest ingredients
      else
        match recipe_id entry with
        | None => for_entries rest ingredients
        | Some recipeId =>
            r <- select_recipe_ingredients recipeId ;;
            match error r with
            | Some ingredientsError => throw ingredientsError
            | None =>
                for_entries rest
                  (accumulate_recipe (servings entry) ingredients
                                     (Js.or_empty (data r)))
            end
        end
  end.

Definition list_name (startDate endDate : string) : string :=
  "Shopping List for " ++ startDate ++ " to " ++ endDate.

Definition with_list_id (newListId : string) (item : Item) : ShoppingListItemRow :=
  mkItemRow item newListId.

(** The body of the [try] block. *)
Definition generate_body (mealPlanId startDate endDate : string) : M Summary :=
  authData_user <- auth_getUser ;;
  match authData_user with
  | None => throw (JsError "Not authenticated")
  | Some user =>
      meals <- select_meal_plan_entries mealPlanId startDate endDate ;;
      match error meals with
      | Some mealsError => throw mealsError
      | None =>
          ingredients <- for_entries (Js.or_empty (data meals)) [] ;;
          let items := shoppingListItems ingredients in
          created <- insert_shopping_list
                       (mkNewList (id user) mealPlanId
                                  (list_name startDate endDate)) ;;
          match error created with
          | Some createListError => throw createListError
          | None =>
              match data created with
              | None => throw TypeError
              | Some newListId =>
                  let itemsWithListId := map (with_list_id newListId) items in
                  inserted <- insert_shopping_list_items itemsWithListId ;;
                  match error inserted with
                  | Some insertError => throw insertError
                  | None => ret (mkSummary true newListId (length items))
                  end
              end
          end
      end
  end.

Definition generateShoppingList (mealPlanId startDate endDate : string)
    : M Summary :=
  try_catch (generate_body mealPlanId startDate endDate)
            (fun error => _ <- console_error error ;; throw error).

(** ** Vocabulary of the statements *)

(** The tuples the two loops visit, in order: each ingredient fetched for
    an entry that is not skipped, with the servings of that entry. *)
Definition Tuple : Type := (option number * RecipeIngredient)%type.

Definition tuples (fetched : list (MealEntry * list RecipeIngredient))
    : list Tuple :=
  flat_map
    (fun ef =>
       if skipped (fst ef) then []
       else map (fun ingredient => (servings (fst ef), ingredient)) (snd ef))
    fetched.

(** The two loops as one pass over the tuples. *)
Definition visit (ingredients : Dict) (ts : list Tuple) : Dict :=
  fold_left (fun acc t => accumulate (fst t) acc (snd t)) ts ingredients.

(** What one tuple adds: [ingredient.quantity * entry.servings]. *)
Definition contribution (t : Tuple) : number :=
  mul (ToNumber (quantity (snd t))) (ToNumber (fst t)).

(** The sum of the contributions, taken as the code takes it: from [0],
    in the order of the visit. *)
Definition total_from (start : number) (ts : list Tuple) : number :=
  fold_left (fun acc t => add acc (contribution t)) ts start.

Definition total (ts : list Tuple) : number := total_from zero ts.

(** The tuples stored under a key, and those with a given name and unit. *)
Definition has_key (key : string) (t : Tuple) : bool :=
  String.eqb (key_of (snd t)) key.

Definition unit_eqb (u1 u2 : option string) : bool :=
  match u1, u2 with
  | Some a, Some b => String.eqb a b
  | None, None => true
  | _, _ => false
  end.

Definition has_name_unit (n : string) (u : option string) (t : Tuple) : bool :=
  String.eqb (ingredient_name (snd t)) n && unit_eqb (unit (snd t)) u.

(** An ingredient whose key splits back into its name and unit: no
    separator in the name, and a unit that is not the text ["null"] (which
    a null unit turns into inside the key). *)
Definition separable (ingredient : RecipeIngredient) : bool :=
  negb (Js.contains Js.bar (ingredient_name ingredient))
  && negb (unit_eqb (unit ingredient) (Some "null")).

(** Two tuples end up in one item when a pass over the two of them leaves
    a single property in [ingredients]. *)
Definition merged_together (t1 t2 : Tuple) : Prop :=
  length (shoppingListItems (visit [] [t1; t2])) = 1.

(** The pair that must be unique among the items of one list. *)
Definition name_unit (item : Item) : string * option string :=
  (product_name item, item_unit item).

(** The key the code builds from a name and a unit. *)
Definition key_of_pair (nu : string * option string) : string :=
  fst nu ++ "|" ++ Js.template (snd nu).

(** The world [w] with its two written tables replaced and more requests
    in its log. *)
Definition written (w : World) (lists : list ShoppingListRow)
    (items : list ShoppingListItemRow)
    (new : list (Request * option Error)) : World :=
  mkWorld (session w) (meal_plan_entries w) (recipe_ingredients w)
          lists items (requests w ++ new)
          (console w) (faults w) (gen_random_uuid w).

(** The world [w] with another [meal_plan_entries] table. *)
Definition with_entries (w : World) (rows : list MealPlanEntryRow) : World :=
  mkWorld (session w) rows (recipe_ingredients w)
          (shopping_lists w) (shopping_list_items w)
          (requests w) (console w) (faults w) (gen_random_uuid w).

(** A request that came back without error, as it stands in the log. *)
Definition ok (r : Request) : Request * option Error := (r, None).

(** A request that came back with an error. *)
Definition failed (r : Request) (e : Error) : Request * option Error :=
  (r, Some e).

(** The recipes the outer loop fetches, one per entry it does not skip. *)
Definition fetch_ids (mealEntries : list MealEntry) : list string :=
  flat_map
    (fun entry =>
       if skipped entry then []
       else match recipe_id entry with
            | Some recipeId => [recipeId]
            | None => []
            end)
    mealEntries.

(** Each entry with the ingredient rows the store holds for its recipe. *)
Definition fetched_for (w : World) (mealEntries : list MealEntry)
    : list (MealEntry * list RecipeIngredient) :=
  map (fun entry =>
         (entry,
          match recipe_id entry with
          | Some recipeId => ingredients_of recipeId (recipe_ingredients w)
          | None => []
          end))
      mealEntries.

(** The rows of [meal_plan_entries] that belong to the plan and are dated
    within the range, both ends included. *)
Definition date_le (d1 d2 : string) : Prop := String.leb d1 d2 = true.

Definition in_plan_and_range (mealPlanId startDate endDate : string)
    (row : MealPlanEntryRow) : Prop :=
  entry_meal_plan_id row = mealPlanId
  /\ date_le startDate (entry_meal_date row)
  /\ date_le (entry_meal_date row) endDate.

(** The entries the query returns. *)
Definition selected_entries (w : World) (mealPlanId startDate endDate : string)
    : list MealEntry :=
  map entry_columns
      (filter (selected mealPlanId startDate endDate) (meal_plan_entries w)).

(** The items a run is expected to insert, from the tables alone. *)
Definition merged_items (w : World) (mealPlanId startDate endDate : string)
    : list Item :=
  shoppingListItems
    (aggregate
       (fetched_for w (selected_entries w mealPlanId startDate endDate))).

(** No request fails. *)
Definition fault_free (w : World) : Prop := forall n, faults w n = None.

(** The pieces of a complete run. *)
Definition ok_fetch (recipeId : string) : Request * option Error :=
  ok (SelectRecipeIngredients recipeId).

Definition reads_of (w : World) (mealPlanId startDate endDate : string)
    : list (Request * option Error) :=
  [ok GetUser; ok (SelectMealPlanEntries mealPlanId startDate endDate)]
  ++ map ok_fetch (fetch_ids (selected_entries w mealPlanId startDate endDate)).

Definition new_list_id (w : World) : string :=
  gen_random_uuid w (length (shopping_lists w)).

Definition new_list (user : User) (mealPlanId startDate endDate : string)
    : NewShoppingList :=
  mkNewList (id user) mealPlanId (list_name startDate endDate).

Definition new_item_rows (w : World) (mealPlanId startDate endDate : string)
    : list ShoppingListItemRow :=
  map (with_list_id (new_list_id w))
      (merged_items w mealPlanId startDate endDate).

(** The six ways the [try] block can go, with the world each leaves. *)
Inductive Run (w : World) (mealPlanId startDate endDate : string)
    : Outcome Summary -> World -> Prop :=
| NotAuthenticated :
    session w = None \/ fault_now w <> None ->
    Run w mealPlanId startDate endDate
        (Thrown (JsError "Not authenticated"))
        (logged w [(GetUser, fault_now w)])
| EntriesFailed (user : User) (err : Error) (n : nat) :
    session w = Some user ->
    faults w n = Some err ->
    Run w mealPlanId startDate endDate
        (Thrown err)
        (logged w
           [ok GetUser;
            failed (SelectMealPlanEntries mealPlanId startDate endDate) err])
| IngredientsFailed (user : User) (err : Error) (n : nat)
      (pre post : list string) (recipeId : string) :
    session w = Some user ->
    faults w n = Some err ->
    fetch_ids (selected_entries w mealPlanId startDate endDate)
      = pre ++ recipeId :: post ->
    Run w mealPlanId startDate endDate
        (Thrown err)
        (logged w
           ([ok GetUser;
             ok (SelectMealPlanEntries mealPlanId startDate endDate)]
            ++ map ok_fetch pre
            ++ [failed (SelectRecipeIngredients recipeId) err]))
| CreateFailed (user : User) (err : Error) (n : nat) :
    session w = Some user ->
    faults w n = Some err ->
    Run w mealPlanId startDate endDate
        (Thrown err)
        (logged w
           (reads_of w mealPlanId startDate endDate
            ++ [failed (InsertShoppingList
                          (new_list user mealPlanId startDate endDate)) err]))
| InsertFailed (user : User) (err : Error) (n : nat) :
    session w = Some user ->
    faults w n = Some err ->
    Run w mealPlanId startDate endDate
        (Thrown err)
        (written w
           (shopping_lists w
            ++ [mkListRow (new_list_id w)
                          (new_list user mealPlanId startDate endDate)])
           (shopping_list_items w)
           (reads_of w mealPlanId startDate endDate
            ++ [ok (InsertShoppingList
                      (new_list user mealPlanId startDate endDate));
                failed (InsertShoppingListItems
                          (new_item_rows w mealPlanId startDate endDate)) err]))
| Succeeded (user : User) :
    session w = Some user ->
    Run w mealPlanId startDate endDate
        (Returned
           (mkSummary true (new_list_id w)
              (length (merged_items w mealPlanId startDate endDate))))
        (written w
           (shopping_lists w
            ++ [mkListRow (new_list_id w)
                          (new_list user mealPlanId startDate endDate)])
           (shopping_list_items w
            ++ new_item_rows w mealPlanId startDate endDate)
           (reads_of w mealPlanId startDate endDate
            ++ [ok (InsertShoppingList
                      (new_list user mealPlanId startDate endDate));
                ok (InsertShoppingListItems
                      (new_item_rows w mealPlanId startDate endDate))])).

(** The requests a call added to the log, and the rows it added. *)
Definition new_requests (w w' : World) : list (Request * option Error) :=
  skipn (length (requests w)) (requests w').

Definition new_items (w w' : World) : list ShoppingListItemRow :=
  skipn (length (shopping_list_items w)) (shopping_list_items w').

Definition new_lists (w w' : World) : list ShoppingListRow :=
  skipn (length (shopping_lists w)) (shopping_lists w').

End Model.

Arguments RecipeIngredient number : clear implicits.
Arguments MealEntry number : clear implicits.
Arguments Bucket number : clear implicits.
Arguments Dict number : clear implicits.
Arguments Item number : clear implicits.
Arguments MealPlanEntryRow number : clear implicits.
Arguments RecipeIngredientRow number : clear implicits.
Arguments ShoppingListItemRow number : clear implicits.
Arguments Request number : clear implicits.
Arguments World number : clear implicits.
Arguments Tuple number : clear implicits.
Arguments M number A : clear implicits.

(** ** The caller (components/weekly-planner-tab.tsx)

    [generateShoppingListFromPlan] is the handler of the planner's button.
    Of the state of the component it reads [mealPlan] and sets
    [isGenerating]; it shows toasts.  The component is modelled by these
    three, next to the world of the store. *)

(** The [MealPlan] of the component's state; its fields [id] and [name]
    are [plan_id] and [plan_name] here. *)
Record MealPlan : Type := mkPlan {
  plan_id : string;
  plan_name : string;
  start_date : string;
  end_date : string
}.

(** The argument of [toast]; [variant] is absent from the success toast. *)
Record Toast : Type := mkToast {
  title : string;
  description : string;
  variant : option string
}.

Record Planner : Type := mkPlanner {
  mealPlan : option MealPlan;
  isGenerating : bool;
  toasts : list Toast
}.

(** [`${n}`] for a length. *)
Definition decimal (n : nat) : string :=
  NilZero.string_of_uint (Nat.to_uint n).

Section Caller.

Context {number : Type} `{JsNumber number}.

(** Computations of the component: the state of the planner and the
    world, both surviving a throw. *)
Definition UI (A : Type) : Type :=
  Planner * World number -> Outcome A * (Planner * World number).

Definition ui_ret {A : Type} (a : A) : UI A := fun st => (Returned a, st).

Definition ui_bind {A B : Type} (c : UI A) (k : A -> UI B) : UI B :=
  fun st =>
    match c st with
    | (Returned a, st1) => k a st1
    | (Thrown e, st1) => (Thrown e, st1)
    end.

(** A call into the library: it sees the world only. *)
Definition lift {A : Type} (c : M number A) : UI A :=
  fun st =>
    let (out, w1) := c (snd st) in (out, (fst st, w1)).

(** [try { body } catch (error) { handler } finally { finalizer }]: the
    finalizer runs last in every case and, when it returns, the outcome is
    that of the body or of the handler. *)
Definition try_catch_finally {A : Type} (body : UI A)
    (handler : Error -> UI A) (finalizer : UI Datatypes.unit) : UI A :=
  fun st =>
    let (out, st1) :=
      match body st with
      | (Returned a, st1) => (Returned a, st1)
      | (Thrown e, st1) => handler e st1
      end in
    match finalizer st1 with
    | (Returned _, st2) => (out, st2)
    | (Thrown e, st2) => (Thrown e, st2)
    end.

Definition setIsGenerating (b : bool) : UI Datatypes.unit :=
  fun st =>
    (Returned tt, (mkPlanner (mealPlan (fst st)) b (toasts (fst st)), snd st)).

Definition toast (t : Toast) : UI Datatypes.unit :=
  fun st =>
    (Returned tt,
     (mkPlanner (mealPlan (fst st)) (isGenerating (fst st))
                (toasts (fst st) ++ [t]),
      snd st)).

Definition success_toast (result : Summary) : Toast :=
  mkToast "Success"
          ("Shopping list created with " ++ decimal (itemCount result)
           ++ " items")
          None.

Definition failure_toast : Toast :=
  mkToast "Error" "Failed to generate shopping list" (Some "destructive").

Definition generateShoppingListFromPlan : UI Datatypes.unit :=
  fun st =>
    match mealPlan (fst st) with
    | None => ui_ret tt st
    | Some plan =>
        ui_bind (setIsGenerating true)
          (fun _ =>
             try_catch_finally
               (ui_bind
                  (lift (generateShoppingList (plan_id plan)
                           (start_date plan) (end_date plan)))
                  (fun result => toast (success_toast result)))
               (fun error =>
                  ui_bind (lift (console_error error))
                          (fun _ => toast failure_toast))
               (setIsGenerating false))
          st
    end.

(** ** More vocabulary *)

(** The distinct elements of a list, each where it first occurs. *)
Definition first_seen (l : list string) : list string :=
  rev (nodup string_dec (rev l)).

(** The recipes a log asks the ingredients of, in order. *)
Definition fetched_recipes (l : list (Request number * option Error))
    : list string :=
  flat_map
    (fun x =>
       match fst x with
       | SelectRecipeIngredients recipeId => [recipeId]
       | _ => []
       end)
    l.

(** The recipes referenced by rows of [meal_plan_entries], one per row
    that has one. *)
Definition recipes_of (rows : list (MealPlanEntryRow number)) : list string :=
  flat_map
    (fun row =>
       match entry_recipe_id row with
       | Some EmptyString => []
       | Some recipeId => [recipeId]
       | None => []
       end)
    rows.

(** The keys of the tuples a call visits. *)
Definition visited (w : World number) (mealPlanId startDate endDate : string)
    : list (Tuple number) :=
  tuples (fetched_for w (selected_entries w mealPlanId startDate endDate)).

Definition visited_keys (w : World number)
    (mealPlanId startDate endDate : string) : list string :=
  map (fun t => key_of (snd t)) (visited w mealPlanId startDate endDate).

(** A table of ingredients whose every row is separable. *)
Definition separable_table (w : World number) : Prop :=
  Forall (fun row => separable (ingredient_columns row) = true)
         (recipe_ingredients w).

End Caller.

(** ** Concrete data for the runs *)

Module Sample.

Definition ing (n : string) (q : Z) (u : string) : RecipeIngredient Z :=
  mkIngredient n (Some q) (Some u).

Definition entry (rid : string) (s : Z) : MealEntry Z :=
  mkEntry (Some rid) (Some s).

(** A world with empty written tables, an empty log and the identifiers
    ["list-0"], ["list-1"], ... *)
Definition world (user : option User) (entries : list (MealPlanEntryRow Z))
    (ingredients : list (RecipeIngredientRow Z))
    (faults : nat -> option Error) : World Z :=
  mkWorld user entries ingredients [] [] [] [] faults
    (fun n => ("list-" ++ String (ascii_of_nat (48 + n)) "")%string).

Definition never : nat -> option Error := fun _ => None.

Definition at_request (k : nat) (e : Error) : nat -> option Error :=
  fun n => if Nat.eqb n k then Some e else None.

Definition alice : User := mkUser "alice".

(** The scenario of the specification: plan P over 2024-01-01..2024-01-07,
    recipe A for two on 01-02 and recipe B for one on 01-05; with them, an
    entry after the range, one before it, one of another plan, and one
    without a recipe. *)
Definition plan_entries : list (MealPlanEntryRow Z) :=
  [ mkEntryRow "P" (Some "A") "2024-01-02" (Some 2%Z);
    mkEntryRow "P" (Some "B") "2024-01-05" (Some 1%Z);
    mkEntryRow "P" (Some "B") "2024-01-08" (Some 5%Z);
    mkEntryRow "P" (Some "A") "2023-12-31" (Some 7%Z);
    mkEntryRow "Q" (Some "A") "2024-01-03" (Some 9%Z);
    mkEntryRow "P" None "2024-01-04" (Some 1%Z) ].

Definition recipes : list (RecipeIngredientRow Z) :=
  [ mkIngredientRow "A" "Rice" (Some 100%Z) (Some "g");
    mkIngredientRow "A" "Egg" (Some 2%Z) (Some "pcs");
    mkIngredientRow "B" "Rice" (Some 50%Z) (Some "g");
    mkIngredientRow "B" "Onion" (Some 1%Z) (Some "pcs") ].

Definition scenario : World Z := world (Some alice) plan_entries recipes never.

(** The same tables with nobody signed in. *)
Definition signed_out : World Z := world None plan_entries recipes never.

(** The same tables when the second request, the entries query, fails. *)
Definition entries_down : World Z :=
  world (Some alice) plan_entries recipes (at_request 1 (StoreError "503")).

(** A plan whose only entry in the range has no recipe. *)
Definition no_recipes : World Z :=
  world (Some alice)
    [ mkEntryRow "P" None "2024-01-04" (Some 1%Z);
      mkEntryRow "P" (Some "A") "2024-02-01" (Some 1%Z) ]
    recipes never.

(** One entry for one serving of a recipe R. *)
Definition one_meal : list (MealPlanEntryRow Z) :=
  [ mkEntryRow "P" (Some "R") "2024-01-02" (Some 1%Z) ].

(** R lists two ingredients whose names and units differ and whose keys
    are the same string, ["Oil|Butter|tbsp"]. *)
Definition oil_butter : RecipeIngredient Z := ing "Oil|Butter" 1 "tbsp".
Definition oil : RecipeIngredient Z := ing "Oil" 2 "Butter|tbsp".

Definition merging : World Z :=
  world (Some alice) one_meal
    [ mkIngredientRow "R" "Oil|Butter" (Some 1%Z) (Some "tbsp");
      mkIngredientRow "R" "Oil" (Some 2%Z) (Some "Butter|tbsp") ]
    never.

(** R lists two ingredients with different names, the same unit and the
    same text before the separator. *)
Definition doubled : World Z :=
  world (Some alice) one_meal
    [ mkIngredientRow "R" "Oil|Butter" (Some 1%Z) (Some "tbsp");
      mkIngredientRow "R" "Oil|Ghee" (Some 2%Z) (Some "tbsp") ]
    never.

(** The call the runs make. *)
Definition call (w : World Z) : Outcome Summary * World Z :=
  generateShoppingList "P" "2024-01-01" "2024-01-07" w.

(** The items a call inserted, without the list identifier. *)
Definition inserted (w : World Z) : list (Item Z) :=
  map item_fields (new_items w (snd (call w))).

End Sample.

(** More worlds on the tables of the scenario, and a planner. *)

Module More.

Import Sample.

(** The fifth request of the scenario, the insert of the list, fails. *)
Definition create_down : World Z :=
  world (Some alice) plan_entries recipes (at_request 4 (StoreError "503")).

(** The sixth request, the insert of the items, fails. *)
Definition insert_down : World Z :=
  world (Some alice) plan_entries recipes (at_request 5 (StoreError "503")).

(** The rows of both tables the other way round. *)
Definition reordered : World Z :=
  world (Some alice) (rev plan_entries) (rev recipes) never.

Definition week : MealPlan := mkPlan "P" "Week 1" "2024-01-01" "2024-01-07".

(** The planner showing that plan, idle, with no toast yet. *)
Definition planner : Planner := mkPlanner (Some week) false [].

(** The scenario with one more recipe, which no entry references. *)
Definition with_saffron : World Z :=
  world (Some alice) plan_entries
    (mkIngredientRow "Z" "Saffron" (Some 1%Z) (Some "g") :: recipes) never.

Definition flour_g : RecipeIngredient Z := ing "Flour" 100 "g".
Definition flour_cup : RecipeIngredient Z := ing "Flour" 1 "cup".

End More.


(** * Properties *)

(** ** Splitting and the separator *)

Module JsFacts.

Lemma split_nonempty (sep : ascii) (s : string) : Js.split sep s <> [].
Proof.
  induction s as [|c rest IH]; simpl; [discriminate|].
  destruct (Ascii.eqb c sep); [discriminate|].
  destruct (Js.split sep rest); discriminate.
Qed.

(** The first segment of a split is the text before the first separator. *)
Lemma hd_split (sep : ascii) (s : string) :
  hd EmptyString (Js.split sep s) = Js.before sep s.
Proof.
  induction s as [|c rest IH]; simpl; [reflexivity|].
  destruct (Ascii.eqb c sep); [reflexivity|].
  destruct (Js.split sep rest) as [|seg segs] eqn:E.
  - exfalso. exact (split_nonempty sep rest E).
  - simpl in *. now rewrite IH.
Qed.

Lemma before_has_no_sep (sep : ascii) (s : string) :
  Js.contains sep (Js.before sep s) = false.
Proof.
  induction s as [|c rest IH]; simpl; [reflexivity|].
  destruct (Ascii.eqb c sep) eqn:E; simpl; [reflexivity|].
  now rewrite E.
Qed.

Lemma before_append (sep : ascii) (a b : string) :
  Js.before sep (a ++ String sep b) = Js.before sep a.
Proof.
  induction a as [|c rest IH]; simpl.
  - now rewrite Ascii.eqb_refl.
  - destruct (Ascii.eqb c sep); [reflexivity|]. now rewrite IH.
Qed.

Lemma before_without_sep (sep : ascii) (s : string) :
  Js.contains sep s = false -> Js.before sep s = s.
Proof.
  induction s as [|c rest IH]; simpl; [reflexivity|].
  destruct (Ascii.eqb c sep); simpl; [discriminate|].
  intros Hc. now rewrite IH.
Qed.

Lemma before_with_sep (sep : ascii) (s : string) :
  Js.contains sep s = true -> Js.before sep s <> s.
Proof.
  intros Hc E. rewrite <- E, before_has_no_sep in Hc. discriminate.
Qed.

Lemma append_cancel (a b1 b2 : string) :
  (a ++ b1)%string = (a ++ b2)%string -> b1 = b2.
Proof.
  induction a as [|c rest IH]; simpl; intros E; [assumption|].
  injection E as E. now apply IH.
Qed.

End JsFacts.

(** ** Dates as text *)

Module IsoFacts.

Import Iso.

Lemma compare_digit (a b : nat) :
  a < 10 -> b < 10 -> Ascii.compare (digit a) (digit b) = Nat.compare a b.
Proof.
  intros Ha Hb.
  do 10 (destruct a as [|a];
         [do 10 (destruct b as [|b]; [reflexivity|]); lia|]).
  lia.
Qed.

Lemma compare_two_digits (a b : nat) (r1 r2 : string) :
  a < 100 -> b < 100 ->
  String.compare (two_digits a ++ r1) (two_digits b ++ r2) =
  match Nat.compare a b with
  | Eq => String.compare r1 r2
  | c => c
  end.
Proof.
  intros Ha Hb. unfold two_digits. cbn [append String.compare].
  pose proof (Nat.div_mod_eq a 10) as Ea.
  pose proof (Nat.div_mod_eq b 10) as Eb.
  pose proof (Nat.mod_upper_bound a 10 ltac:(discriminate)) as Ma.
  pose proof (Nat.mod_upper_bound b 10 ltac:(discriminate)) as Mb.
  rewrite !compare_digit by lia.
  destruct (Nat.compare_spec (a / 10) (b / 10)) as [Hq|Hq|Hq];
    destruct (Nat.compare_spec (a mod 10) (b mod 10)) as [Hr|Hr|Hr];
    destruct (Nat.compare_spec a b) as [Hc|Hc|Hc];
    try reflexivity; exfalso; lia.
Qed.

Lemma compare_four_digits (a b : nat) (r1 r2 : string) :
  a < 100 * 100 -> b < 100 * 100 ->
  String.compare (four_digits a ++ r1) (four_digits b ++ r2) =
  match Nat.compare a b with
  | Eq => String.compare r1 r2
  | c => c
  end.
Proof.
  intros Ha Hb. unfold four_digits.
  pose proof (Nat.div_mod_eq a 100) as Ea.
  pose proof (Nat.div_mod_eq b 100) as Eb.
  pose proof (Nat.mod_upper_bound a 100 ltac:(discriminate)) as Ma.
  pose proof (Nat.mod_upper_bound b 100 ltac:(discriminate)) as Mb.
  change ((two_digits (a / 100) ++ two_digits (a mod 100)) ++ r1)%string
    with (two_digits (a / 100) ++ (two_digits (a mod 100) ++ r1))%string.
  change ((two_digits (b / 100) ++ two_digits (b mod 100)) ++ r2)%string
    with (two_digits (b / 100) ++ (two_digits (b mod 100) ++ r2))%string.
  rewrite !compare_two_digits by lia.
  destruct (Nat.compare_spec (a / 100) (b / 100)) as [Hq|Hq|Hq];
    destruct (Nat.compare_spec (a mod 100) (b mod 100)) as [Hr|Hr|Hr];
    destruct (Nat.compare_spec a b) as [Hc|Hc|Hc];
    try reflexivity; exfalso; lia.
Qed.

(** The order of the texts is the order of the calendar. *)
Lemma compare_iso (d1 d2 : Date) :
  fits d1 -> fits d2 ->
  String.compare (iso d1) (iso d2) = chronological d1 d2.
Proof.
  intros (Hy1 & Hm1 & Hd1) (Hy2 & Hm2 & Hd2). unfold iso, chronological.
  rewrite compare_four_digits by assumption.
  destruct (Nat.compare (year d1) (year d2)); try reflexivity.
  change (String.compare ("-" ++ ?a) ("-" ++ ?b)) with (String.compare a b).
  rewrite compare_two_digits by assumption.
  destruct (Nat.compare (month d1) (month d2)); try reflexivity.
  change (String.compare ("-" ++ ?a) ("-" ++ ?b)) with (String.compare a b).
  change (two_digits (day d1)) with (two_digits (day d1) ++ "")%string.
  change (two_digits (day d2)) with (two_digits (day d2) ++ "")%string.
  rewrite compare_two_digits by assumption.
  destruct (Nat.compare (day d1) (day d2)); reflexivity.
Qed.

(** So the two bounds of the entries query are bounds of the calendar. *)
Lemma leb_iso (d1 d2 : Date) :
  fits d1 -> fits d2 ->
  String.leb (iso d1) (iso d2) = on_or_before d1 d2.
Proof.
  intros H1 H2. unfold String.leb, on_or_before.
  now rewrite compare_iso.
Qed.

End IsoFacts.

(** ** The object [ingredients] *)

Section DictFacts.

Context {number : Type} `{JsNumber number}.

Implicit Types (d : Dict number) (b : Bucket number) (key k : string).
Implicit Types (ingredient : RecipeIngredient number) (t : Tuple number).

Lemma get_set_same key b d : get key (set key b d) = Some b.
Proof.
  induction d as [|[k0 b0] rest IH]; simpl.
  - now rewrite String.eqb_refl.
  - destruct (String.eqb k0 key) eqn:E; simpl; rewrite E; auto.
Qed.

Lemma get_set_other key k b d : key <> k -> get k (set key b d) = get k d.
Proof.
  intros Hne. induction d as [|[k0 b0] rest IH]; simpl.
  - destruct (String.eqb_spec key k); [contradiction|reflexivity].
  - destruct (String.eqb_spec k0 key) as [->|Hk]; simpl.
    + destruct (String.eqb_spec key k); [contradiction|reflexivity].
    + now rewrite IH.
Qed.

Lemma get_None_iff key d : get key d = None <-> ~ In key (map fst d).
Proof.
  induction d as [|[k0 b0] rest IH]; simpl; [tauto|].
  destruct (String.eqb_spec k0 key) as [->|Hk].
  - split; [discriminate|]. intros Hn. exfalso. apply Hn. now left.
  - rewrite IH. tauto.
Qed.

Lemma keys_set_present key b b' d :
  get key d = Some b' -> map fst (set key b d) = map fst d.
Proof.
  induction d as [|[k0 b0] rest IH]; simpl; [discriminate|].
  destruct (String.eqb_spec k0 key) as [->|Hk]; simpl; [reflexivity|].
  intros Hg. now rewrite IH.
Qed.

Lemma keys_set_absent key b d :
  get key d = None -> map fst (set key b d) = map fst d ++ [key].
Proof.
  induction d as [|[k0 b0] rest IH]; simpl; [reflexivity|].
  destruct (String.eqb_spec k0 key) as [->|Hk]; simpl; [discriminate|].
  intros Hg. now rewrite IH.
Qed.

(** The bucket a tuple is added to: the one already under its key, or a
    fresh one with quantity [0] and the unit of this ingredient. *)
Lemma get_accumulate s d ingredient k :
  get k (accumulate s d ingredient) =
  if String.eqb (key_of ingredient) k then
    match get (key_of ingredient) d with
    | Some b0 =>
        Some (mkBucket (add (bucket_quantity b0) (contribution (s, ingredient)))
                       (bucket_unit b0))
    | None =>
        Some (mkBucket (add zero (contribution (s, ingredient)))
                       (unit ingredient))
    end
  else get k d.
Proof.
  unfold accumulate, contribution; simpl.
  destruct (get (key_of ingredient) d) as [b0|] eqn:Hg.
  - rewrite Hg.
    destruct (String.eqb_spec (key_of ingredient) k) as [<-|Hk].
    + now rewrite get_set_same.
    + now rewrite get_set_other.
  - rewrite get_set_same.
    destruct (String.eqb_spec (key_of ingredient) k) as [<-|Hk].
    + now rewrite get_set_same.
    + now rewrite !get_set_other.
Qed.

Lemma keys_accumulate s d ingredient :
  map fst (accumulate s d ingredient) =
  match get (key_of ingredient) d with
  | Some _ => map fst d
  | None => map fst d ++ [key_of ingredient]
  end.
Proof.
  unfold accumulate.
  destruct (get (key_of ingredient) d) as [b0|] eqn:Hg.
  - rewrite Hg. now rewrite (keys_set_present _ _ b0).
  - rewrite get_set_same.
    erewrite keys_set_present by apply get_set_same.
    now apply keys_set_absent.
Qed.

Lemma NoDup_accumulate s d ingredient :
  NoDup (map fst d) -> NoDup (map fst (accumulate s d ingredient)).
Proof.
  intros Hnd. rewrite keys_accumulate.
  destruct (get (key_of ingredient) d) eqn:Hg; [assumption|].
  apply get_None_iff in Hg.
  apply NoDup_rev in Hnd. rewrite <- (rev_involutive (_ ++ _)).
  apply NoDup_rev. rewrite rev_app_distr. simpl.
  constructor; [|assumption]. now rewrite <- in_rev.
Qed.

Lemma NoDup_visit ts d :
  NoDup (map fst d) -> NoDup (map fst (visit d ts)).
Proof.
  revert d. induction ts as [|t ts IH]; intros d Hnd; simpl; [assumption|].
  apply IH. now apply NoDup_accumulate.
Qed.

(** The two nested loops visit the tuples in order. *)
Lemma aggregate_from_visit fetched d :
  aggregate_from d fetched = visit d (tuples fetched).
Proof.
  revert d. induction fetched as [|[entry rows] rest IH]; intros d; [reflexivity|].
  unfold aggregate_from, tuples in *. simpl.
  rewrite IH. unfold visit. rewrite fold_left_app. f_equal.
  destruct (skipped entry); [reflexivity|].
  unfold accumulate_recipe. simpl.
  generalize d. induction rows as [|r rows IHr]; intros d0; simpl; [reflexivity|].
  apply IHr.
Qed.

Lemma total_from_cons start t ts :
  total_from start (t :: ts) = total_from (add start (contribution t)) ts.
Proof. reflexivity. Qed.

(** What is stored under a key after a pass: the quantity is the sum, in
    order, of the contributions of the tuples with that key, on top of
    what was there; the unit is the one that was there, or the unit of the
    first tuple with that key. *)
Lemma get_visit ts d k :
  get k (visit d ts) =
  match get k d with
  | Some b0 =>
      Some (mkBucket (total_from (bucket_quantity b0) (filter (has_key k) ts))
                     (bucket_unit b0))
  | None =>
      match filter (has_key k) ts with
      | [] => None
      | t :: _ =>
          Some (mkBucket (total (filter (has_key k) ts)) (unit (snd t)))
      end
  end.
Proof.
  revert d. induction ts as [|[s i] ts IH]; intros d.
  - simpl. destruct (get k d) as [[q u]|]; reflexivity.
  - change (visit d ((s, i) :: ts)) with (visit (accumulate s d i) ts).
    rewrite IH, get_accumulate.
    clear IH. cbn [filter].
    change (has_key k (s, i)) with (String.eqb (key_of i) k).
    destruct (String.eqb_spec (key_of i) k) as [<-|Hk]; [|reflexivity].
    destruct (get (key_of i) d) as [b0|]; reflexivity.
Qed.

End DictFacts.

(** ** The runs of [generateShoppingList] *)

Section RunFacts.

Context {number : Type} `{JsNumber number}.

Implicit Types (w : World number) (d : Dict number).

Lemma logged_nil w : logged w [] = w.
Proof. destruct w. unfold logged. simpl. now rewrite app_nil_r. Qed.

Lemma logged_logged w a b : logged (logged w a) b = logged w (a ++ b).
Proof. unfold logged. simpl. now rewrite app_assoc. Qed.

Lemma fault_now_logged w new :
  fault_now (logged w new) = faults w (length (requests w) + length new).
Proof. unfold fault_now. simpl. now rewrite length_app. Qed.

(** The outer loop: either every fetch came back and the result is the
    aggregation of what the store holds for the entries, or one fetch
    failed, the loop stopped there and its error is thrown. *)
Lemma for_entries_run (es : list (MealEntry number)) d w :
  match for_entries es d w with
  | (Returned d', w') =>
      d' = aggregate_from d (fetched_for w es)
      /\ w' = logged w (map ok_fetch (fetch_ids es))
  | (Thrown err, w') =>
      exists pre recipeId post n,
        fetch_ids es = pre ++ recipeId :: post
        /\ faults w n = Some err
        /\ w' = logged w (map ok_fetch pre
                           ++ [failed (SelectRecipeIngredients recipeId) err])
  end.
Proof.
  revert d w. induction es as [|entry rest IH]; intros d w.
  - simpl. split; [reflexivity|]. now rewrite logged_nil.
  - cbn [for_entries fetch_ids fetched_for flat_map map].
    unfold aggregate_from. cbn [fold_left fst snd].
    fold (aggregate_from (number := number)).
    destruct (skipped entry) eqn:Hs.
    + specialize (IH d w). simpl. apply IH.
    + destruct (recipe_id entry) as [recipeId|] eqn:Hr.
      2:{ unfold skipped in Hs. rewrite Hr in Hs. discriminate. }
      unfold bind, select_recipe_ingredients, read.
      destruct (fault_now w) as [err|] eqn:Hf; cbn [error data Js.or_empty].
      * unfold throw. exists [], recipeId, (fetch_ids rest), (length (requests w)).
        repeat split; auto.
        unfold log. now rewrite Hf.
      * specialize (IH (accumulate_recipe (servings entry) d
                          (ingredients_of recipeId (recipe_ingredients w)))
                       (log (SelectRecipeIngredients recipeId) w)).
        destruct (for_entries rest _ _) as [[d'|err] w'].
        -- destruct IH as [-> ->]. split; [reflexivity|].
           unfold log. rewrite logged_logged, Hf. reflexivity.
        -- destruct IH as (pre & rid & post & n & Hids & Hn & ->).
           exists (recipeId :: pre), rid, post, n. repeat split.
           ++ change (recipeId :: fetch_ids rest = (recipeId :: pre) ++ rid :: post).
              now rewrite Hids.
           ++ exact Hn.
           ++ unfold log. rewrite logged_logged, Hf. reflexivity.
Qed.

Lemma written_logged w a lists items b :
  written (logged w a) lists items b = written w lists items (a ++ b).
Proof. unfold written, logged. simpl. now rewrite app_assoc. Qed.

Lemma written_written w lists items a lists' items' b :
  written (written w lists items a) lists' items' b
  = written w lists' items' (a ++ b).
Proof. unfold written. simpl. now rewrite app_assoc. Qed.

Lemma logged_written w lists items a b :
  logged (written w lists items a) b = written w lists items (a ++ b).
Proof. unfold written, logged. simpl. now rewrite app_assoc. Qed.

Lemma fault_now_written w lists items new :
  fault_now (written w lists items new)
  = faults w (length (requests w) + length new).
Proof. unfold fault_now. simpl. now rewrite length_app. Qed.

(** The two inserts, by the fault of the moment. *)
Lemma insert_shopping_list_run (row : NewShoppingList) w :
  insert_shopping_list row w =
  match fault_now w with
  | Some e =>
      (Returned (mkResponse None (Some e)),
       logged w [failed (InsertShoppingList row) e])
  | None =>
      (Returned (mkResponse (Some (new_list_id w)) None),
       written w (shopping_lists w ++ [mkListRow (new_list_id w) row])
               (shopping_list_items w) [ok (InsertShoppingList row)])
  end.
Proof.
  unfold insert_shopping_list, log.
  destruct (fault_now w); reflexivity.
Qed.

Lemma insert_items_run (rows : list (ShoppingListItemRow number)) w :
  insert_shopping_list_items rows w =
  match fault_now w with
  | Some e =>
      (Returned (mkResponse None (Some e)),
       logged w [failed (InsertShoppingListItems rows) e])
  | None =>
      (Returned (mkResponse (Some tt) None),
       written w (shopping_lists w) (shopping_list_items w ++ rows)
               [ok (InsertShoppingListItems rows)])
  end.
Proof.
  unfold insert_shopping_list_items, log.
  destruct (fault_now w); reflexivity.
Qed.

Ltac world_eq :=
  unfold log, logged, written, printed, ok_fetch, ok, failed; cbn [requests
    session meal_plan_entries recipe_ingredients shopping_lists
    shopping_list_items console faults gen_random_uuid];
  repeat rewrite <- app_assoc; cbn [app]; try reflexivity.

(** Every call of the [try] block goes one of the six ways. *)
Lemma generate_body_run w (p s e : string) :
  Run w p s e (fst (generate_body p s e w)) (snd (generate_body p s e w)).
Proof.
  unfold generate_body, bind, auth_getUser.
  destruct (fault_now w) as [e0|] eqn:F0.
  { cbn [fst snd throw]. unfold log. apply NotAuthenticated.
    right. rewrite F0. discriminate. }
  destruct (session w) as [user|] eqn:Hs.
  2:{ cbn [fst snd throw]. unfold log. apply NotAuthenticated. now left. }
  unfold select_meal_plan_entries, read.
  destruct (fault_now (log GetUser w)) as [e1|] eqn:F1; cbn [error data Js.or_empty].
  { cbn [fst snd throw].
    replace (log _ (log GetUser w))
      with (logged w [ok GetUser; failed (SelectMealPlanEntries p s e) e1]).
    - unfold log in F1. rewrite fault_now_logged in F1.
      eapply EntriesFailed; eauto.
    - unfold log at 1. rewrite F1. unfold log. rewrite F0. world_eq. }
  pose proof (for_entries_run
                (map entry_columns
                     (filter (selected p s e)
                             (meal_plan_entries
                                (log (SelectMealPlanEntries p s e) (log GetUser w)))))
                [] (log (SelectMealPlanEntries p s e) (log GetUser w))) as Hloop.
  assert (Hw2 : log (SelectMealPlanEntries p s e) (log GetUser w)
                = logged w [ok GetUser; ok (SelectMealPlanEntries p s e)]).
  { unfold log at 1. rewrite F1. unfold log. rewrite F0. world_eq. }
  destruct (for_entries _ _ _) as [[d'|err] w3].
  2:{ destruct Hloop as (pre & rid & post & n & Hids & Hn & ->).
      cbn [fst snd]. rewrite Hw2, logged_logged.
      eapply IngredientsFailed with (n := n); eauto. }
  destruct Hloop as [-> ->]. rewrite Hw2, logged_logged.
  change (map entry_columns _) with (selected_entries w p s e).
  change (fetched_for (logged w _) ?es) with (fetched_for w es).
  fold (reads_of w p s e).
  rewrite insert_shopping_list_run.
  destruct (fault_now (logged w (reads_of w p s e))) as [e3|] eqn:F3;
    cbn [error data].
  { cbn [fst snd throw]. rewrite logged_logged.
    rewrite fault_now_logged in F3. eapply CreateFailed; eauto. }
  rewrite insert_items_run.
  change (shoppingListItems (aggregate_from [] ?f)) with (shoppingListItems (aggregate f)).
  fold (merged_items w p s e).
  change (new_list_id (logged w ?a)) with (new_list_id w).
  fold (new_item_rows w p s e). fold (new_list user p s e).
  cbn [shopping_lists shopping_list_items logged written].
  fold (logged w (reads_of w p s e)).
  rewrite written_logged.
  destruct (fault_now (written w _ _ _)) as [e4|] eqn:F4;
    cbn [error data fst snd throw ret].
  - rewrite logged_written, <- app_assoc. cbn [app].
    rewrite fault_now_written in F4.
    eapply InsertFailed; eauto.
  - rewrite written_written, <- app_assoc. cbn [app].
    eapply Succeeded; eauto.
Qed.

(** The whole function: the [catch] prints the error and throws it again. *)
Lemma generate_run w (p s e : string) :
  exists out w1,
    Run w p s e out w1
    /\ generateShoppingList p s e w =
       (out, match out with
             | Returned _ => w1
             | Thrown err => printed err w1
             end).
Proof.
  pose proof (generate_body_run w p s e) as HR.
  unfold generateShoppingList, try_catch.
  destruct (generate_body p s e w) as [[sm|err] w1]; cbn [fst snd] in HR.
  - now exists (Returned sm), w1.
  - now exists (Thrown err), w1.
Qed.

Lemma skipn_length_app {A : Type} (a b : list A) :
  skipn (length a) (a ++ b) = b.
Proof. induction a; simpl; auto. Qed.

Lemma new_requests_logged w new : new_requests w (logged w new) = new.
Proof. apply skipn_length_app. Qed.

Lemma new_requests_written w lists items new :
  new_requests w (written w lists items new) = new.
Proof. apply skipn_length_app. Qed.

Lemma new_requests_printed w w1 err :
  new_requests w (printed err w1) = new_requests w w1.
Proof. reflexivity. Qed.

Lemma new_items_logged w new : new_items w (logged w new) = [].
Proof.
  unfold new_items. simpl.
  rewrite <- (app_nil_r (shopping_list_items w)) at 2.
  apply skipn_length_app.
Qed.

Lemma new_items_written w lists rows new :
  new_items w (written w lists (shopping_list_items w ++ rows) new) = rows.
Proof. apply skipn_length_app. Qed.

Lemma new_items_written_same w lists new :
  new_items w (written w lists (shopping_list_items w) new) = [].
Proof.
  unfold new_items. simpl.
  rewrite <- (app_nil_r (shopping_list_items w)) at 2.
  apply skipn_length_app.
Qed.

(** With a user in the session and no fault, the call succeeds. *)
Lemma generate_fault_free w (p s e : string) (user : User) :
  session w = Some user ->
  fault_free w ->
  generateShoppingList p s e w =
  (Returned (mkSummary true (new_list_id w) (length (merged_items w p s e))),
   written w
     (shopping_lists w ++ [mkListRow (new_list_id w) (new_list user p s e)])
     (shopping_list_items w ++ new_item_rows w p s e)
     (reads_of w p s e
      ++ [ok (InsertShoppingList (new_list user p s e));
          ok (InsertShoppingListItems (new_item_rows w p s e))])).
Proof.
  intros Hs Hff.
  destruct (generate_run w p s e) as (out & w1 & HR & ->).
  destruct HR as [Hna | u err n Hu Hn | u err n pre post rid Hu Hn _
                 | u err n Hu Hn | u err n Hu Hn | u Hu];
    try (rewrite Hff in Hn; discriminate).
  - destruct Hna as [Hna | Hna]; [congruence|].
    exfalso. apply Hna. apply Hff.
  - assert (u = user) by congruence. subst u. reflexivity.
Qed.

(** A call that returns went the sixth way. *)
Lemma generate_returned w (p s e : string) (sm : Summary) w' :
  generateShoppingList p s e w = (Returned sm, w') ->
  exists user,
    session w = Some user
    /\ sm = mkSummary true (new_list_id w) (length (merged_items w p s e))
    /\ w' = written w
              (shopping_lists w
               ++ [mkListRow (new_list_id w) (new_list user p s e)])
              (shopping_list_items w ++ new_item_rows w p s e)
              (reads_of w p s e
               ++ [ok (InsertShoppingList (new_list user p s e));
                   ok (InsertShoppingListItems (new_item_rows w p s e))]).
Proof.
  intros Hrun.
  destruct (generate_run w p s e) as (out & w1 & HR & Heq).
  rewrite Hrun in Heq.
  destruct HR; try discriminate.
  injection Heq as -> ->. eauto.
Qed.

End RunFacts.

(** ** The aggregation: keys, quantities and names *)

Section AggregatorFacts.

Context {number : Type} `{JsNumber number}.

Implicit Types (d : Dict number) (b : Bucket number) (k : string).
Implicit Types (i : RecipeIngredient number) (t : Tuple number).
Implicit Types (fetched : list (MealEntry number * list (RecipeIngredient number))).

Lemma unit_eqb_spec (u1 u2 : option string) :
  unit_eqb u1 u2 = true <-> u1 = u2.
Proof.
  destruct u1 as [a|], u2 as [b|]; simpl; try (split; congruence).
  rewrite String.eqb_eq. split; congruence.
Qed.

Lemma In_get d k b : NoDup (map fst d) -> In (k, b) d -> get k d = Some b.
Proof.
  induction d as [|[k0 b0] rest IH]; simpl; [tauto|].
  intros Hnd [Heq|Hin].
  - injection Heq as -> ->. now rewrite String.eqb_refl.
  - inversion Hnd as [|? ? Hnotin Hnd']; subst.
    destruct (String.eqb_spec k0 k) as [->|_]; [|auto].
    exfalso. apply Hnotin. apply (in_map fst) in Hin. exact Hin.
Qed.

Lemma get_In d k b : get k d = Some b -> In (k, b) d.
Proof.
  induction d as [|[k0 b0] rest IH]; simpl; [discriminate|].
  destruct (String.eqb_spec k0 k) as [->|_].
  - intros [= ->]. now left.
  - auto.
Qed.

(** The keys of [ingredients] are pairwise distinct. *)
Lemma aggregate_keys_NoDup fetched : NoDup (map fst (aggregate fetched)).
Proof.
  unfold aggregate. rewrite aggregate_from_visit.
  apply NoDup_visit. constructor.
Qed.

(** What a property of [ingredients] holds at the end: the sum of the
    contributions of the tuples with its key, and the unit of the first
    of them. *)
Lemma bucket_of_key fetched k b :
  In (k, b) (aggregate fetched) ->
  exists t rest,
    filter (has_key k) (tuples fetched) = t :: rest
    /\ bucket_quantity b = total (t :: rest)
    /\ bucket_unit b = unit (snd t).
Proof.
  intros Hin. apply In_get in Hin; [|apply aggregate_keys_NoDup].
  unfold aggregate in Hin. rewrite aggregate_from_visit, get_visit in Hin.
  cbn [get] in Hin.
  destruct (filter (has_key k) (tuples fetched)) as [|t rest]; [discriminate|].
  injection Hin as <-. now exists t, rest.
Qed.

(** Every visited tuple has its key in [ingredients]. *)
Lemma key_of_visited fetched t :
  In t (tuples fetched) ->
  exists b, In (key_of (snd t), b) (aggregate fetched).
Proof.
  intros Hin.
  assert (Hf : In t (filter (has_key (key_of (snd t))) (tuples fetched))).
  { apply filter_In. split; [assumption|]. unfold has_key. apply String.eqb_refl. }
  pose proof (get_visit (tuples fetched) [] (key_of (snd t))) as Hg.
  cbn [get] in Hg.
  destruct (filter _ _) as [|t0 rest]; [destruct Hf|].
  rewrite <- aggregate_from_visit in Hg.
  eexists. apply get_In. exact Hg.
Qed.

(** The name an item gets is the name of the ingredient up to its first
    separator. *)
Lemma product_name_of_key i :
  hd EmptyString (Js.split Js.bar (key_of i))
  = Js.before Js.bar (ingredient_name i).
Proof.
  rewrite JsFacts.hd_split. unfold key_of.
  change ("|" ++ Js.template (unit i))%string
    with (String Js.bar (Js.template (unit i))).
  apply JsFacts.before_append.
Qed.

(** For separable ingredients the key determines the name and the unit. *)
Lemma key_of_separable i1 i2 :
  separable i1 = true -> separable i2 = true ->
  key_of i1 = key_of i2 ->
  ingredient_name i1 = ingredient_name i2 /\ unit i1 = unit i2.
Proof.
  unfold separable. rewrite !andb_true_iff, !negb_true_iff.
  intros [Hn1 Hu1] [Hn2 Hu2] Hk.
  assert (Hname : ingredient_name i1 = ingredient_name i2).
  { apply (f_equal (fun key => hd EmptyString (Js.split Js.bar key))) in Hk.
    rewrite !product_name_of_key in Hk.
    now rewrite !JsFacts.before_without_sep in Hk. }
  split; [exact Hname|].
  unfold key_of in Hk. rewrite Hname in Hk.
  apply JsFacts.append_cancel in Hk. apply JsFacts.append_cancel in Hk.
  destruct (unit i1) as [a|], (unit i2) as [c|]; simpl in *; try congruence.
  - subst a. rewrite String.eqb_refl in Hu1. discriminate.
  - subst c. rewrite String.eqb_refl in Hu2. discriminate.
Qed.

Lemma has_key_separable i t :
  separable i = true -> separable (snd t) = true ->
  has_key (key_of i) t = has_name_unit (ingredient_name i) (unit i) t.
Proof.
  intros Hi Ht. unfold has_key, has_name_unit.
  destruct (String.eqb_spec (key_of (snd t)) (key_of i)) as [Hk|Hk].
  - destruct (key_of_separable _ _ Ht Hi Hk) as [-> ->].
    rewrite String.eqb_refl. symmetry. now apply unit_eqb_spec.
  - symmetry. apply not_true_is_false. intros Hc.
    apply andb_true_iff in Hc. destruct Hc as [Hn Hu].
    apply String.eqb_eq in Hn. apply unit_eqb_spec in Hu.
    apply Hk. unfold key_of. now rewrite Hn, Hu.
Qed.

(** Two tuples are merged exactly when their keys are the same string. *)
Lemma merged_together_iff_key t1 t2 :
  merged_together t1 t2 <-> key_of (snd t1) = key_of (snd t2).
Proof.
  unfold merged_together, shoppingListItems.
  rewrite length_map, <- (length_map fst).
  cbn [visit fold_left]. rewrite !keys_accumulate. cbn [get map app].
  destruct (String.eqb_spec (key_of (snd t1)) (key_of (snd t2))) as [Hk|Hk].
  - rewrite get_accumulate, Hk, String.eqb_refl. cbn [get]. simpl. tauto.
  - rewrite get_accumulate. cbn [get].
    destruct (String.eqb_spec (key_of (snd t1)) (key_of (snd t2)));
      [contradiction|].
    simpl. split; [discriminate|contradiction].
Qed.

(** Same name and same unit always merge. *)
Lemma same_name_unit_merge t1 t2 :
  ingredient_name (snd t1) = ingredient_name (snd t2) ->
  unit (snd t1) = unit (snd t2) ->
  merged_together t1 t2.
Proof.
  intros Hn Hu. apply merged_together_iff_key. unfold key_of. now rewrite Hn, Hu.
Qed.

(** For separable ingredients, merging is having the same name and the
    same unit. *)
Lemma separable_merge_iff t1 t2 :
  separable (snd t1) = true -> separable (snd t2) = true ->
  (merged_together t1 t2 <->
   ingredient_name (snd t1) = ingredient_name (snd t2)
   /\ unit (snd t1) = unit (snd t2)).
Proof.
  intros H1 H2. rewrite merged_together_iff_key. split.
  - now apply key_of_separable.
  - intros [Hn Hu]. unfold key_of. now rewrite Hn, Hu.
Qed.

(** An item made from a property whose tuples are separable carries the
    name and the unit of those tuples. *)
Lemma separable_item fetched k b :
  Forall (fun t => separable (snd t) = true) (tuples fetched) ->
  In (k, b) (aggregate fetched) ->
  exists t rest,
    filter (has_key k) (tuples fetched) = t :: rest
    /\ k = key_of (snd t)
    /\ name_unit (to_item (k, b)) = (ingredient_name (snd t), unit (snd t))
    /\ item_quantity (to_item (k, b)) = total (t :: rest).
Proof.
  intros Hsep Hin.
  destruct (bucket_of_key _ _ _ Hin) as (t & rest & Hf & Hq & Hu).
  assert (Ht : In t (filter (has_key k) (tuples fetched)))
    by (rewrite Hf; now left).
  apply filter_In in Ht. destruct Ht as [Ht Hk].
  unfold has_key in Hk. apply String.eqb_eq in Hk.
  rewrite Forall_forall in Hsep. pose proof (Hsep t Ht) as Hst.
  exists t, rest. repeat split; auto.
  unfold name_unit, to_item. cbn [product_name item_unit].
  rewrite <- Hk, product_name_of_key, Hu.
  rewrite JsFacts.before_without_sep; [reflexivity|].
  unfold separable in Hst. apply andb_true_iff in Hst.
  destruct Hst as [Hn _]. now apply negb_true_iff in Hn.
Qed.

(** On separable ingredients the quantity of an item is the sum of the
    contributions of the tuples with the name and the unit of the item. *)
Lemma separable_item_total fetched (item : Item number) :
  Forall (fun t => separable (snd t) = true) (tuples fetched) ->
  In item (shoppingListItems (aggregate fetched)) ->
  item_quantity item =
  total (filter (has_name_unit (product_name item) (item_unit item))
                (tuples fetched)).
Proof.
  intros Hsep Hin. unfold shoppingListItems in Hin.
  apply in_map_iff in Hin. destruct Hin as ([k b] & <- & Hin).
  destruct (separable_item _ _ _ Hsep Hin) as (t & rest & Hf & Hk & Hnu & Hq).
  rewrite Hq, <- Hf.
  injection Hnu as Hn Hu.
  change (product_name (to_item (k, b)))
    with (hd EmptyString (Js.split Js.bar k)).
  change (item_unit (to_item (k, b))) with (bucket_unit b).
  rewrite Hn, Hu, Hk.
  assert (Ht : In t (tuples fetched)).
  { assert (Ht' : In t (filter (has_key k) (tuples fetched)))
      by (rewrite Hf; now left).
    now apply filter_In in Ht'. }
  rewrite Forall_forall in Hsep.
  f_equal. apply filter_ext_in. intros t' Ht'.
  apply has_key_separable; auto.
Qed.

(** On separable ingredients no two items have the same name and unit. *)
Lemma separable_items_NoDup fetched :
  Forall (fun t => separable (snd t) = true) (tuples fetched) ->
  NoDup (map name_unit (shoppingListItems (aggregate fetched))).
Proof.
  intros Hsep.
  apply (NoDup_map_inv key_of_pair).
  unfold shoppingListItems. rewrite !map_map.
  rewrite (map_ext_in _ fst); [apply aggregate_keys_NoDup|].
  intros [k b] Hin.
  destruct (separable_item _ _ _ Hsep Hin) as (t & rest & _ & Hk & Hnu & _).
  rewrite Hnu, Hk. reflexivity.
Qed.

End AggregatorFacts.

(** ** The materialisation: what a call reads, writes and returns *)

Section Materializer.

Context {number : Type} `{JsNumber number}.

Implicit Types (w : World number).

Lemma selected_spec (p s e : string) (row : MealPlanEntryRow number) :
  selected p s e row = true <-> in_plan_and_range p s e row.
Proof.
  unfold selected, in_plan_and_range, date_le.
  rewrite !andb_true_iff, String.eqb_eq. tauto.
Qed.

(** C6. Without a user in the session the call throws "Not authenticated";
    the only request it has sent is the one that asks for the user, so no
    table was read and none was written. *)
Theorem not_authenticated_before_any_data w (p s e : string) :
  session w = None ->
  fst (generateShoppingList p s e w) = Thrown (JsError "Not authenticated")
  /\ new_requests w (snd (generateShoppingList p s e w))
     = [(GetUser, fault_now w)]
  /\ Forall (fun x => is_read (fst x) = false /\ is_write (fst x) = false)
            (new_requests w (snd (generateShoppingList p s e w)))
  /\ shopping_lists (snd (generateShoppingList p s e w)) = shopping_lists w
  /\ shopping_list_items (snd (generateShoppingList p s e w))
     = shopping_list_items w.
Proof.
  intros Hs.
  destruct (generate_run w p s e) as (out & w1 & HR & ->).
  destruct HR; try congruence.
  cbn [fst snd]. rewrite new_requests_printed, new_requests_logged.
  repeat split; auto.
Qed.

(** C9. A call that returns has added exactly one row to
    [shopping_lists]: owned by the user of the session, linked to the
    given meal plan, named "Shopping List for {startDate} to {endDate}",
    and it returns the identifier of that row. *)
Theorem success_creates_one_named_list w (p s e : string) (sm : Summary) w' :
  generateShoppingList p s e w = (Returned sm, w') ->
  exists user,
    session w = Some user
    /\ shopping_lists w' =
       shopping_lists w
       ++ [mkListRow (listId sm)
             (mkNewList (id user) p
                ("Shopping List for " ++ s ++ " to " ++ e)%string)]
    /\ length (new_lists w w') = 1.
Proof.
  intros Hrun. apply generate_returned in Hrun.
  destruct Hrun as (user & Hs & -> & ->).
  exists user. cbn [listId shopping_lists written].
  repeat split; auto.
  unfold new_lists. cbn [shopping_lists written].
  now rewrite skipn_length_app.
Qed.

(** The outer loop does not read [meal_plan_entries]: in a world with
    another table of entries it does the same, and leaves that table. *)
Lemma for_entries_with_entries (es : list (MealEntry number))
    (d : Dict number) w (rows : list (MealPlanEntryRow number)) :
  for_entries es d (with_entries w rows)
  = (fst (for_entries es d w), with_entries (snd (for_entries es d w)) rows).
Proof.
  revert d w. induction es as [|en es IH]; intros d w; [reflexivity|].
  cbn [for_entries].
  destruct (skipped en); [apply IH|].
  destruct (recipe_id en) as [rid|]; [|apply IH].
  unfold bind, select_recipe_ingredients, read.
  change (fault_now (with_entries w rows)) with (fault_now w).
  change (log (SelectRecipeIngredients rid) (with_entries w rows))
    with (with_entries (log (SelectRecipeIngredients rid) w) rows).
  destruct (fault_now w) as [err|]; cbn [error data Js.or_empty];
    [reflexivity|].
  apply IH.
Qed.

(** The outer loop passes over the entries it skips: with or without
    them it sends the same requests and ends with the same [ingredients]. *)
Lemma for_entries_drop_skipped (es : list (MealEntry number))
    (d : Dict number) w :
  for_entries es d w
  = for_entries (filter (fun en => negb (skipped en)) es) d w.
Proof.
  revert d w. induction es as [|en es IH]; intros d w; [reflexivity|].
  cbn [filter]. destruct (skipped en) eqn:Hsk; cbn [negb].
  - cbn [for_entries]. rewrite Hsk. apply IH.
  - cbn [for_entries]. rewrite Hsk.
    destruct (recipe_id en) as [rid|]; [|apply IH].
    unfold bind.
    destruct (select_recipe_ingredients rid w) as [[r|err] w1]; [|reflexivity].
    destruct (error r); [reflexivity|apply IH].
Qed.

(** A call in a world whose table of entries has other rows, the same
    once the rows outside the selection and the rows without recipe are
    left out, goes the same way and leaves the same world, but for that
    table. *)
Lemma generate_with_entries w (p s e : string)
    (rows : list (MealPlanEntryRow number)) :
  filter (fun en => negb (skipped en))
         (map entry_columns (filter (selected p s e) rows))
  = filter (fun en => negb (skipped en)) (selected_entries w p s e) ->
  generateShoppingList p s e (with_entries w rows)
  = (fst (generateShoppingList p s e w),
     with_entries (snd (generateShoppingList p s e w)) rows).
Proof.
  intros Hsame.
  assert (Hbody : generate_body p s e (with_entries w rows)
                  = (fst (generate_body p s e w),
                     with_entries (snd (generate_body p s e w)) rows)).
  { unfold generate_body, bind, auth_getUser.
    change (fault_now (with_entries w rows)) with (fault_now w).
    change (log GetUser (with_entries w rows))
      with (with_entries (log GetUser w) rows).
    change (session (with_entries w rows)) with (session w).
    destruct (fault_now w) as [e0|]; [reflexivity|].
    destruct (session w) as [user|]; [|reflexivity].
    unfold select_meal_plan_entries, read.
    change (fault_now (with_entries (log GetUser w) rows))
      with (fault_now (log GetUser w)).
    change (log (SelectMealPlanEntries p s e)
                (with_entries (log GetUser w) rows))
      with (with_entries
              (log (SelectMealPlanEntries p s e) (log GetUser w)) rows).
    destruct (fault_now (log GetUser w)) as [e1|];
      cbn [error data Js.or_empty]; [reflexivity|].
    change (meal_plan_entries (with_entries (log GetUser w) rows)) with rows.
    change (meal_plan_entries (log GetUser w)) with (meal_plan_entries w).
    rewrite for_entries_with_entries.
    rewrite (for_entries_drop_skipped
               (map entry_columns (filter (selected p s e) rows))).
    rewrite (for_entries_drop_skipped
               (map entry_columns
                    (filter (selected p s e) (meal_plan_entries w)))).
    fold (selected_entries w p s e). rewrite Hsame.
    destruct (for_entries _ [] _) as [[d|err] w3]; cbn [fst snd];
      [|reflexivity].
    rewrite !insert_shopping_list_run.
    change (fault_now (with_entries w3 rows)) with (fault_now w3).
    destruct (fault_now w3) as [e3|]; cbn [error data]; [reflexivity|].
    rewrite !insert_items_run.
    match goal with
    | |- context [fault_now (written (with_entries w3 rows) ?l ?i ?n)] =>
        change (fault_now (written (with_entries w3 rows) l i n))
          with (fault_now (written w3 l i n))
    end.
    change (new_list_id (with_entries w3 rows)) with (new_list_id w3).
    destruct (fault_now (written w3 _ _ _)) as [e4|]; cbn [error data];
      reflexivity. }
  unfold generateShoppingList, try_catch. rewrite Hbody.
  destruct (generate_body p s e w) as [[sm|err] w1]; reflexivity.
Qed.

(** C5. When every entry the range selects (possibly none) has a null
    recipe reference, the call returns with [itemCount = 0], inserts no
    item, and fetches the ingredients of no recipe.  In every plan, an
    entry with a null recipe reference is skipped entirely: with that row
    taken out of the table the call goes the same way, sends the same
    requests and inserts the same items. *)
Theorem no_recipe_no_items w (p s e : string) :
  (forall user,
     session w = Some user ->
     fault_free w ->
     (forall row, In row (meal_plan_entries w) ->
                  in_plan_and_range p s e row -> entry_recipe_id row = None) ->
     fst (generateShoppingList p s e w)
       = Returned (mkSummary true (new_list_id w) 0)
     /\ new_items w (snd (generateShoppingList p s e w)) = []
     /\ new_requests w (snd (generateShoppingList p s e w))
        = [ok GetUser; ok (SelectMealPlanEntries p s e);
           ok (InsertShoppingList (new_list user p s e));
           ok (InsertShoppingListItems [])])
  /\ (forall pre row post,
        meal_plan_entries w = pre ++ row :: post ->
        entry_recipe_id row = None ->
        let w0 := with_entries w (pre ++ post) in
        generateShoppingList p s e w0
        = (fst (generateShoppingList p s e w),
           with_entries (snd (generateShoppingList p s e w)) (pre ++ post))
        /\ fst (generateShoppingList p s e w0)
           = fst (generateShoppingList p s e w)
        /\ new_requests w0 (snd (generateShoppingList p s e w0))
           = new_requests w (snd (generateShoppingList p s e w))
        /\ new_items w0 (snd (generateShoppingList p s e w0))
           = new_items w (snd (generateShoppingList p s e w))
        /\ new_lists w0 (snd (generateShoppingList p s e w0))
           = new_lists w (snd (generateShoppingList p s e w))).
Proof.
  split.
  - intros user Hs Hff Hnull.
    rewrite (generate_fault_free w p s e user Hs Hff). cbn [fst snd].
    assert (Hskip : forall es : list (MealEntry number),
               Forall (fun en => recipe_id en = None) es ->
               fetch_ids es = []
               /\ forall d, aggregate_from d (fetched_for w es) = d).
    { induction 1 as [|en es Hen _ [IH1 IH2]]; [now split|].
      split.
      - cbn [fetch_ids flat_map]. unfold skipped. rewrite Hen. exact IH1.
      - intros d. cbn [fetched_for map].
        change (aggregate_from
                  (if skipped en then d
                   else accumulate_recipe (servings en) d
                          match recipe_id en with
                          | Some recipeId =>
                              ingredients_of recipeId (recipe_ingredients w)
                          | None => []
                          end)
                  (fetched_for w es) = d).
        unfold skipped. rewrite Hen. apply IH2. }
    assert (Hall : Forall (fun en : MealEntry number => recipe_id en = None)
                          (selected_entries w p s e)).
    { unfold selected_entries. rewrite Forall_map, Forall_forall.
      intros row Hin. apply filter_In in Hin. destruct Hin as [Hin Hsel].
      apply selected_spec in Hsel. exact (Hnull row Hin Hsel). }
    destruct (Hskip _ Hall) as [Hids Hagg].
    assert (Hitems : merged_items w p s e = []).
    { unfold merged_items, aggregate. now rewrite Hagg. }
    rewrite new_items_written, new_requests_written.
    unfold new_item_rows, reads_of. rewrite Hitems, Hids.
    repeat split; reflexivity.
  - intros pre row post Hrows Hnone w0.
    assert (Hrun : generateShoppingList p s e w0
                   = (fst (generateShoppingList p s e w),
                      with_entries (snd (generateShoppingList p s e w))
                                   (pre ++ post))).
    { apply generate_with_entries.
      unfold selected_entries. rewrite Hrows, !filter_app, !map_app, !filter_app.
      f_equal. cbn [filter].
      destruct (selected p s e row); [|reflexivity].
      cbn [map filter].
      assert (Hsk : skipped (entry_columns row) = true)
        by (unfold skipped, entry_columns; cbn [recipe_id]; now rewrite Hnone).
      now rewrite Hsk. }
    split; [exact Hrun|]. rewrite Hrun. cbn [fst snd].
    repeat split; reflexivity.
Qed.

Lemma item_fields_with_list_id (newId : string) (items : list (Item number)) :
  map item_fields (map (with_list_id newId) items) = items.
Proof.
  rewrite map_map. cbn [with_list_id item_fields]. apply map_id.
Qed.

(** On dates of the form [YYYY-MM-DD] the filter of the query is the
    range of the calendar, both ends included. *)
Lemma selected_iso (p : string) (from to on : Iso.Date)
    (rid : option string) (sv : option number) :
  Iso.fits from -> Iso.fits to -> Iso.fits on ->
  selected p (Iso.iso from) (Iso.iso to)
           (mkEntryRow p rid (Iso.iso on) sv)
  = Iso.on_or_before from on && Iso.on_or_before on to.
Proof.
  intros Hf Ht Ho. unfold selected. cbn [entry_meal_plan_id entry_meal_date].
  now rewrite String.eqb_refl, !IsoFacts.leb_iso.
Qed.

(** C4. With a user and no fault, the items inserted are the aggregation
    over exactly the rows of [meal_plan_entries] that belong to the plan
    and are dated from [startDate] to [endDate], both included; a row
    outside the plan or the range can be taken out of the table without
    changing what is inserted. *)
Theorem entries_in_range_contribute w (p s e : string) (user : User) :
  session w = Some user ->
  fault_free w ->
  let contributing := filter (selected p s e) (meal_plan_entries w) in
  let items :=
    shoppingListItems
      (aggregate (fetched_for w (map entry_columns contributing))) in
  (forall row, In row contributing <->
               In row (meal_plan_entries w) /\ in_plan_and_range p s e row)
  /\ fst (generateShoppingList p s e w)
     = Returned (mkSummary true (new_list_id w) (length items))
  /\ new_items w (snd (generateShoppingList p s e w))
     = map (with_list_id (new_list_id w)) items
  /\ (forall pre row post,
        meal_plan_entries w = pre ++ row :: post ->
        ~ in_plan_and_range p s e row ->
        map item_fields
          (new_items (with_entries w (pre ++ post))
             (snd (generateShoppingList p s e (with_entries w (pre ++ post)))))
        = items).
Proof.
  intros Hs Hff contributing items.
  rewrite (generate_fault_free w p s e user Hs Hff). cbn [fst snd].
  rewrite new_items_written.
  split; [|split; [|split]]; try reflexivity.
  - intros row. unfold contributing. rewrite filter_In, selected_spec. tauto.
  - intros pre row post Hrows Hout.
    rewrite (generate_fault_free (with_entries w (pre ++ post)) p s e user Hs Hff).
    cbn [snd]. rewrite new_items_written.
    unfold new_item_rows. rewrite item_fields_with_list_id.
    unfold items, contributing, merged_items, selected_entries.
    cbn [meal_plan_entries with_entries]. rewrite Hrows.
    rewrite !filter_app. cbn [filter].
    destruct (selected p s e row) eqn:Hsel; [|reflexivity].
    apply selected_spec in Hsel. contradiction.
Qed.

(** C8. Two calls on worlds with the same [meal_plan_entries] and
    [recipe_ingredients] insert the same merged items, whatever else the
    worlds hold (other users, earlier lists, earlier requests); so does a
    second call made in the world the first one left. *)
Theorem aggregation_is_deterministic w1 w2 (p s e : string) (u1 u2 : User) :
  session w1 = Some u1 ->
  session w2 = Some u2 ->
  fault_free w1 ->
  fault_free w2 ->
  meal_plan_entries w1 = meal_plan_entries w2 ->
  recipe_ingredients w1 = recipe_ingredients w2 ->
  let merged w :=
    map item_fields (new_items w (snd (generateShoppingList p s e w))) in
  merged w1 = merged w2
  /\ Permutation (merged w1) (merged w2)
  /\ merged (snd (generateShoppingList p s e w1)) = merged w1.
Proof.
  intros Hs1 Hs2 Hf1 Hf2 He Hi merged.
  assert (Hm : forall w u, session w = Some u -> fault_free w ->
                           merged w = merged_items w p s e).
  { intros w u Hs Hf. unfold merged.
    rewrite (generate_fault_free w p s e u Hs Hf). cbn [snd].
    rewrite new_items_written. apply item_fields_with_list_id. }
  assert (H12 : merged w1 = merged w2).
  { rewrite (Hm w1 u1 Hs1 Hf1), (Hm w2 u2 Hs2 Hf2).
    unfold merged_items, selected_entries, fetched_for.
    now rewrite He, Hi. }
  split; [exact H12|split; [now rewrite H12|]].
  rewrite (Hm w1 u1 Hs1 Hf1).
  rewrite (generate_fault_free w1 p s e u1 Hs1 Hf1). cbn [snd].
  erewrite Hm; [reflexivity| exact Hs1 | exact Hf1].
Qed.

(** C7. If a read of this call (the entries query or a fetch of
    ingredients) came back with an error, the call throws that very error,
    and it has sent no insert: [shopping_lists] and [shopping_list_items]
    are as they were. *)
Theorem read_failure_aborts_before_write w (p s e : string)
    (r : Request number) (err : Error) :
  In (r, Some err) (new_requests w (snd (generateShoppingList p s e w))) ->
  is_read r = true ->
  fst (generateShoppingList p s e w) = Thrown err
  /\ Forall (fun x => is_write (fst x) = false)
            (new_requests w (snd (generateShoppingList p s e w)))
  /\ shopping_lists (snd (generateShoppingList p s e w)) = shopping_lists w
  /\ shopping_list_items (snd (generateShoppingList p s e w))
     = shopping_list_items w.
Proof.
  destruct (generate_run w p s e) as (out & w1 & HR & ->).
  assert (Hok : forall ids, ~ In (r, Some err) (map ok_fetch ids)).
  { intros ids Hin. apply in_map_iff in Hin.
    destruct Hin as (x & Hx & _). discriminate. }
  assert (Hfetch : forall ids,
             Forall (fun x : Request number * option Error =>
                       is_write (fst x) = false) (map ok_fetch ids)).
  { intros ids. rewrite Forall_map. apply Forall_forall. now intros. }
  destruct HR as [Hna | u err' n Hu Hn | u err' n pre post rid Hu Hn Hids
                 | u err' n Hu Hn | u err' n Hu Hn | u Hu];
    cbn [fst snd]; rewrite ?new_requests_printed;
    rewrite ?new_requests_logged, ?new_requests_written;
    intros Hin Hread.
  - destruct Hin as [Hin|[]]. injection Hin as <- _. discriminate.
  - destruct Hin as [Hin|[Hin|[]]]; [discriminate|].
    injection Hin as _ ->. repeat split; auto.
  - cbn [app] in Hin. destruct Hin as [Hin|[Hin|Hin]]; try discriminate.
    apply in_app_or in Hin. destruct Hin as [Hin|[Hin|[]]].
    + exfalso. exact (Hok _ Hin).
    + injection Hin as _ ->. repeat split; auto.
      cbn [app]. repeat constructor.
      apply Forall_app. split; [apply Hfetch|now repeat constructor].
  - exfalso. unfold reads_of in Hin. cbn [app] in Hin.
    destruct Hin as [Hin|[Hin|Hin]]; try discriminate.
    apply in_app_or in Hin. destruct Hin as [Hin|[Hin|[]]].
    + exact (Hok _ Hin).
    + injection Hin as <- _. discriminate.
  - exfalso. unfold reads_of in Hin. cbn [app] in Hin.
    destruct Hin as [Hin|[Hin|Hin]]; try discriminate.
    apply in_app_or in Hin. destruct Hin as [Hin|[Hin|[Hin|[]]]].
    + exact (Hok _ Hin).
    + discriminate.
    + injection Hin as <- _. discriminate.
  - exfalso. unfold reads_of in Hin. cbn [app] in Hin.
    destruct Hin as [Hin|[Hin|Hin]]; try discriminate.
    apply in_app_or in Hin. destruct Hin as [Hin|[Hin|[Hin|[]]]].
    + exact (Hok _ Hin).
    + discriminate.
    + discriminate.
Qed.

(** Whatever way a call goes, the rows it adds to [shopping_list_items]
    are none, or the merged items under the new list. *)
Lemma new_items_cases w (p s e : string) :
  new_items w (snd (generateShoppingList p s e w)) = []
  \/ new_items w (snd (generateShoppingList p s e w)) = new_item_rows w p s e.
Proof.
  destruct (generate_run w p s e) as (out & w1 & HR & ->).
  destruct HR; cbn [snd];
    try (left; change (new_items w (printed ?x ?y)) with (new_items w y);
         first [apply new_items_logged | apply new_items_written_same]).
  right. apply new_items_written.
Qed.

(** C10. The name of every inserted item is the first segment of the
    split of its key: it has no separator in it, it is the name of the
    first ingredient stored under that key cut before its first separator,
    and the unit of the item is the unit of that ingredient.  When the
    call returns, every visited ingredient has such an item; if its name
    has a separator in it, the name of the item is not its name. *)
Theorem product_name_is_first_segment w (p s e : string) :
  let w' := snd (generateShoppingList p s e w) in
  let visited := tuples (fetched_for w (selected_entries w p s e)) in
  (forall row, In row (new_items w w') ->
     Js.contains Js.bar (product_name (item_fields row)) = false
     /\ exists t rest,
          filter (has_key (key_of (snd t))) visited = t :: rest
          /\ product_name (item_fields row)
             = hd EmptyString (Js.split Js.bar (key_of (snd t)))
          /\ product_name (item_fields row)
             = Js.before Js.bar (ingredient_name (snd t))
          /\ item_unit (item_fields row) = unit (snd t))
  /\ (forall sm t,
        fst (generateShoppingList p s e w) = Returned sm ->
        In t visited ->
        exists row,
          In row (new_items w w')
          /\ product_name (item_fields row)
             = Js.before Js.bar (ingredient_name (snd t))
          /\ (Js.contains Js.bar (ingredient_name (snd t)) = true ->
              product_name (item_fields row) <> ingredient_name (snd t))).
Proof.
  intros w' visited. split.
  - intros row Hin. unfold w' in Hin.
    destruct (new_items_cases w p s e) as [Hn|Hn]; rewrite Hn in Hin;
      [destruct Hin|].
    unfold new_item_rows, merged_items, shoppingListItems in Hin.
    rewrite map_map in Hin. apply in_map_iff in Hin.
    destruct Hin as ([k b] & <- & Hin).
    destruct (bucket_of_key _ _ _ Hin) as (t & rest & Hf & _ & Hu).
    assert (Hk : key_of (snd t) = k).
    { assert (Ht : In t (filter (has_key k) visited))
        by (unfold visited; rewrite Hf; now left).
      apply filter_In in Ht. destruct Ht as [_ Ht]. now apply String.eqb_eq. }
    cbn [with_list_id item_fields to_item product_name item_unit].
    rewrite <- Hk, product_name_of_key. split.
    + apply JsFacts.before_has_no_sep.
    + exists t, rest. rewrite Hk. repeat split; auto.
      rewrite <- Hk at 1. symmetry. apply product_name_of_key.
  - intros sm t Hret Ht.
    destruct (generateShoppingList p s e w) as [out w0] eqn:Hrun.
    cbn [fst] in Hret. subst out.
    apply generate_returned in Hrun. destruct Hrun as (user & _ & _ & Hw0).
    unfold w'. cbn [snd]. rewrite Hw0, new_items_written.
    destruct (key_of_visited _ _ Ht) as (b & Hb).
    exists (with_list_id (new_list_id w) (to_item (key_of (snd t), b))).
    split; [|split].
    + unfold new_item_rows, merged_items, shoppingListItems.
      rewrite map_map. apply in_map_iff. now exists (key_of (snd t), b).
    + cbn [with_list_id item_fields to_item product_name].
      apply product_name_of_key.
    + cbn [with_list_id item_fields to_item product_name].
      rewrite product_name_of_key. now apply JsFacts.before_with_sep.
Qed.

End Materializer.

(** ** Runs on concrete data *)

Module Samples.

Import Sample.

(** The scenario of the specification: Rice 250 g, Egg 4 pcs, Onion 1 pcs;
    three items under the new list. *)
Example scenario_items :
  fst (call scenario) = Returned (mkSummary true "list-0" 3)
  /\ inserted scenario
     = [ mkItem "Rice" 250%Z (Some "g") false;
         mkItem "Egg" 4%Z (Some "pcs") false;
         mkItem "Onion" 1%Z (Some "pcs") false ].
Proof. split; reflexivity. Qed.

(** An ingredient of quantity 2 in an entry of 3 servings adds 6, a null
    quantity adds 0, and "Flour" in grams and in cups stay apart. *)
Example scaling_and_units :
  contribution (Some 3%Z, ing "Egg" 2 "pcs") = 6%Z
  /\ contribution (Some 3%Z, mkIngredient "Salt" None (Some "g")) = 0%Z
  /\ shoppingListItems
       (aggregate [(entry "A" 3, [ing "Flour" 100 "g"; ing "Flour" 1 "cup"])])
     = [ mkItem "Flour" 300%Z (Some "g") false;
         mkItem "Flour" 3%Z (Some "cup") false ].
Proof. repeat split; reflexivity. Qed.

(** In doubles the sum is the one taken in the order of the visit:
    0.1, 0.2 and 0.3 of one ingredient add up to 0.6000000000000001. *)
#[warnings="-inexact-float"]
Example doubles_in_order :
  map item_quantity
    (shoppingListItems
       (aggregate
          [(mkEntry (Some "A") (Some 1%float),
            [ mkIngredient "Milk" (Some 0.1%float) (Some "l");
              mkIngredient "Milk" (Some 0.2%float) (Some "l");
              mkIngredient "Milk" (Some 0.3%float) (Some "l") ])]))
  = [0.6000000000000001%float]
  /\ PrimFloat.add 0.1 (PrimFloat.add 0.2 0.3) = 0.6%float.
Proof. split; reflexivity. Qed.

(** C1. Two ingredients with different names and different units whose
    keys are the same string are merged into one item. *)
Theorem different_names_same_key_merge :
  ingredient_name oil_butter <> ingredient_name oil
  /\ unit oil_butter <> unit oil
  /\ key_of oil_butter = key_of oil
  /\ merged_together (Some 1%Z, oil_butter) (Some 1%Z, oil)
  /\ inserted merging = [ mkItem "Oil" 3%Z (Some "tbsp") false ].
Proof.
  repeat split; try reflexivity; discriminate.
Qed.

(** C2. For those two ingredients the only item inserted has quantity 3:
    the sum for the name and unit of the one, 1, and of the other, 2,
    added up, under a name and unit whose own sum is 0. *)
Theorem merged_quantity_mixes_two_pairs :
  let visited :=
    tuples (fetched_for merging
              (selected_entries merging "P" "2024-01-01" "2024-01-07")) in
  map item_quantity (inserted merging) = [3%Z]
  /\ map name_unit (inserted merging) = [("Oil", Some "tbsp")]
  /\ total (filter (has_name_unit "Oil|Butter" (Some "tbsp")) visited) = 1%Z
  /\ total (filter (has_name_unit "Oil" (Some "Butter|tbsp")) visited) = 2%Z
  /\ total (filter (has_name_unit "Oil" (Some "tbsp")) visited) = 0%Z.
Proof.
  repeat split; reflexivity.
Qed.

(** C3. Two ingredients with different names, the same unit and the same
    text before the separator give two inserted items with one name and
    unit. *)
Theorem truncated_names_share_name_unit :
  map name_unit (inserted doubled)
    = [("Oil", Some "tbsp"); ("Oil", Some "tbsp")]
  /\ ~ NoDup (map name_unit (inserted doubled)).
Proof.
  split; [reflexivity|].
  intros Hnd. inversion Hnd as [|x l Hnotin _]. apply Hnotin. now left.
Qed.

Lemma fault_free_never user entries ingredients :
  fault_free (world user entries ingredients never).
Proof. intros n. reflexivity. Defined.

(** The scenario: the two entries of plan P in the first week of January are the ones that count. *)
Lemma entries_in_range_contribute_witness :
  session scenario = Some alice
  /\ fault_free scenario
  /\ fst (call scenario) = Returned (mkSummary true "list-0" 3)
  /\ inserted (with_entries scenario
                 [ mkEntryRow "P" (Some "A") "2024-01-02" (Some 2%Z);
                   mkEntryRow "P" (Some "B") "2024-01-05" (Some 1%Z) ])
     = inserted scenario.
Proof.
  pose proof (entries_in_range_contribute scenario "P" "2024-01-01" "2024-01-07"
                alice eq_refl (fault_free_never _ _ _)) as (_ & Hret & _ & _).
  split; [reflexivity|].
  split; [apply fault_free_never|].
  split; [exact Hret|reflexivity].
Defined.

(** A plan whose only entry in the range has no recipe; and the scenario,
    whose last row has none, with and without that row. *)
Lemma no_recipe_no_items_witness :
  (session no_recipes = Some alice
   /\ fault_free no_recipes
   /\ fst (call no_recipes) = Returned (mkSummary true "list-0" 0)
   /\ new_items no_recipes (snd (call no_recipes)) = [])
  /\ (meal_plan_entries scenario
      = firstn 5 plan_entries
        ++ mkEntryRow "P" None "2024-01-04" (Some 1%Z) :: []
      /\ fst (call (with_entries scenario (firstn 5 plan_entries ++ [])))
         = fst (call scenario)
      /\ new_items (with_entries scenario (firstn 5 plan_entries ++ []))
           (snd (call (with_entries scenario (firstn 5 plan_entries ++ []))))
         = new_items scenario (snd (call scenario))).
Proof.
  assert (Hnull : forall row, In row (meal_plan_entries no_recipes) ->
                    in_plan_and_range "P" "2024-01-01" "2024-01-07" row ->
                    entry_recipe_id row = None).
  { intros row [<-|[<-|[]]] (_ & _ & Hle); [reflexivity|].
    vm_compute in Hle. discriminate. }
  pose proof (proj1 (no_recipe_no_items no_recipes
                       "P" "2024-01-01" "2024-01-07")
                alice eq_refl (fault_free_never _ _ _) Hnull)
    as (Hret & Hnew & _).
  pose proof (proj2 (no_recipe_no_items scenario
                       "P" "2024-01-01" "2024-01-07")
                (firstn 5 plan_entries)
                (mkEntryRow "P" None "2024-01-04" (Some 1%Z)) []
                eq_refl eq_refl)
    as (_ & Hsame & _ & Hitems & _).
  split.
  - split; [reflexivity|].
    split; [apply fault_free_never|].
    split; [exact Hret|exact Hnew].
  - split; [reflexivity|]. split; [exact Hsame|exact Hitems].
Defined.

(** The scenario with nobody signed in. *)
Lemma not_authenticated_before_any_data_witness :
  session signed_out = None
  /\ fst (call signed_out) = Thrown (JsError "Not authenticated")
  /\ new_requests signed_out (snd (call signed_out)) = [(GetUser, None)].
Proof.
  pose proof (not_authenticated_before_any_data signed_out
                "P" "2024-01-01" "2024-01-07" eq_refl) as (Hthrown & Hnew & _).
  split; [reflexivity|].
  split; [exact Hthrown|exact Hnew].
Defined.

(** The scenario when the entries query fails. *)
Lemma read_failure_aborts_before_write_witness :
  In (SelectMealPlanEntries "P" "2024-01-01" "2024-01-07",
      Some (StoreError "503"))
     (new_requests entries_down (snd (call entries_down)))
  /\ fst (call entries_down) = Thrown (StoreError "503")
  /\ shopping_lists (snd (call entries_down)) = []
  /\ shopping_list_items (snd (call entries_down)) = [].
Proof.
  assert (Hin : In (SelectMealPlanEntries "P" "2024-01-01" "2024-01-07",
                    Some (StoreError "503"))
                   (new_requests entries_down (snd (call entries_down)))).
  { vm_compute. right. left. reflexivity. }
  pose proof (read_failure_aborts_before_write entries_down
                "P" "2024-01-01" "2024-01-07" _ _ Hin eq_refl)
    as (Hthrown & _ & Hlists & Hitems).
  split; [exact Hin|].
  split; [exact Hthrown|].
  split; [exact Hlists|exact Hitems].
Defined.

(** The scenario, called a second time. *)
Lemma aggregation_is_deterministic_witness :
  session scenario = Some alice
  /\ session (snd (call scenario)) = Some alice
  /\ meal_plan_entries scenario = meal_plan_entries (snd (call scenario))
  /\ recipe_ingredients scenario = recipe_ingredients (snd (call scenario))
  /\ inserted scenario = inserted (snd (call scenario)).
Proof.
  pose proof (aggregation_is_deterministic scenario (snd (call scenario))
                "P" "2024-01-01" "2024-01-07" alice alice
                eq_refl eq_refl (fault_free_never _ _ _)
                (fun n => eq_refl) eq_refl eq_refl) as (Heq & _ & _).
  split; [reflexivity|].
  split; [reflexivity|].
  split; [reflexivity|].
  split; [reflexivity|exact Heq].
Defined.

(** The list the scenario creates. *)
Lemma success_creates_one_named_list_witness :
  call scenario
    = (Returned (mkSummary true "list-0" 3), snd (call scenario))
  /\ shopping_lists (snd (call scenario))
     = [ mkListRow "list-0"
           (mkNewList "alice" "P"
              "Shopping List for 2024-01-01 to 2024-01-07") ].
Proof.
  assert (Hcall : call scenario
                  = (Returned (mkSummary true "list-0" 3), snd (call scenario)))
    by (vm_compute; reflexivity).
  destruct (success_creates_one_named_list scenario
              "P" "2024-01-01" "2024-01-07" _ _ Hcall)
    as (user & Hs & Hlists & _).
  split; [exact Hcall|].
  rewrite Hlists. injection Hs as <-. reflexivity.
Defined.

(** The first item of the recipe with two kinds of oil. *)
Lemma product_name_is_first_segment_witness :
  In (mkItemRow (mkItem "Oil" 1%Z (Some "tbsp") false) "list-0")
     (new_items doubled (snd (call doubled)))
  /\ Js.contains Js.bar "Oil" = false.
Proof.
  assert (Hin : In (mkItemRow (mkItem "Oil" 1%Z (Some "tbsp") false) "list-0")
                   (new_items doubled (snd (call doubled)))).
  { vm_compute. left. reflexivity. }
  split; [exact Hin|].
  exact (proj1 (proj1 (product_name_is_first_segment doubled
                         "P" "2024-01-01" "2024-01-07") _ Hin)).
Defined.

End Samples.

(** * Further properties of [generateShoppingList] *)

Section Failures.

Context {number : Type} `{JsNumber number}.

Implicit Types (w : World number).

(** Splits a membership in a log into its cases; the fetches that came
    back are set aside at once. *)
Ltac in_log H :=
  repeat match type of H with
         | In _ (reads_of _ _ _ _ ++ _) => unfold reads_of in H
         | In _ ((_ ++ _) ++ _) => rewrite <- app_assoc in H
         | In _ ([] ++ _) => cbn [app] in H
         | In _ ((_ :: _) ++ _) => cbn [app] in H
         | In _ (_ :: _) => destruct H as [H|H]
         | In _ (map ok_fetch _ ++ _) =>
             apply in_app_or in H; destruct H as [H|H]
         | In _ (map ok_fetch _) =>
             apply in_map_iff in H; destruct H as (? & H & _)
         | In _ [] => destruct H
         end.

(** X1. If the insert of the list fails, the call throws the error of the
    insert, has written nothing and has not tried to insert items. *)
Theorem create_failure_writes_nothing w (p s e : string)
    (row : NewShoppingList) (err : Error) :
  In (InsertShoppingList row, Some err)
     (new_requests w (snd (generateShoppingList p s e w))) ->
  fst (generateShoppingList p s e w) = Thrown err
  /\ shopping_lists (snd (generateShoppingList p s e w)) = shopping_lists w
  /\ shopping_list_items (snd (generateShoppingList p s e w))
     = shopping_list_items w
  /\ forall rows o,
       ~ In (InsertShoppingListItems rows, o)
            (new_requests w (snd (generateShoppingList p s e w))).
Proof.
  destruct (generate_run w p s e) as (out & w1 & HR & ->).
  destruct HR; cbn [fst snd]; rewrite ?new_requests_printed;
    rewrite ?new_requests_logged, ?new_requests_written;
    intros Hin; in_log Hin; try discriminate.
  injection Hin as _ ->.
  repeat split; auto.
  intros rows o Hrows. in_log Hrows; discriminate.
Qed.

(** The run in which the insert of the items came back with an error. *)
Lemma items_insert_failed w (p s e : string)
    (rows : list (ShoppingListItemRow number)) (err : Error) :
  In (InsertShoppingListItems rows, Some err)
     (new_requests w (snd (generateShoppingList p s e w))) ->
  fst (generateShoppingList p s e w) = Thrown err
  /\ (exists user,
        session w = Some user
        /\ shopping_lists (snd (generateShoppingList p s e w))
           = shopping_lists w
             ++ [mkListRow (new_list_id w)
                   (mkNewList (id user) p
                      ("Shopping List for " ++ s ++ " to " ++ e)%string)])
  /\ shopping_list_items (snd (generateShoppingList p s e w))
     = shopping_list_items w
  /\ rows = new_item_rows w p s e.
Proof.
  destruct (generate_run w p s e) as (out & w1 & HR & ->).
  destruct HR; cbn [fst snd]; rewrite ?new_requests_printed;
    rewrite ?new_requests_logged, ?new_requests_written;
    intros Hin; in_log Hin; try discriminate.
  injection Hin as <- ->.
  repeat split; eauto.
Qed.

(** X2. If the insert of the items fails, the call throws the error of the
    insert and leaves the list it has just created, with no item: nothing
    removes it. *)
Theorem insert_failure_leaves_empty_list w (p s e : string)
    (rows : list (ShoppingListItemRow number)) (err : Error) :
  In (InsertShoppingListItems rows, Some err)
     (new_requests w (snd (generateShoppingList p s e w))) ->
  fst (generateShoppingList p s e w) = Thrown err
  /\ (exists user,
        session w = Some user
        /\ shopping_lists (snd (generateShoppingList p s e w))
           = shopping_lists w
             ++ [mkListRow (new_list_id w)
                   (mkNewList (id user) p
                      ("Shopping List for " ++ s ++ " to " ++ e)%string)])
  /\ shopping_list_items (snd (generateShoppingList p s e w))
     = shopping_list_items w
  /\ rows = new_item_rows w p s e.
Proof.
  exact (items_insert_failed w p s e rows err).
Qed.

(** The console after a call, by its outcome. *)
Lemma console_after_call w (p s e : string) :
  console (snd (generateShoppingList p s e w))
  = console w
    ++ match fst (generateShoppingList p s e w) with
       | Thrown err => [err]
       | Returned _ => []
       end.
Proof.
  destruct (generate_run w p s e) as (out & w1 & HR & ->).
  destruct HR; cbn [fst snd]; try reflexivity.
  cbn [console written]. now rewrite app_nil_r.
Qed.

(** X3. A call prints the error it throws, once, and prints nothing when it
    returns. *)
Theorem thrown_error_printed_once w (p s e : string) :
  console (snd (generateShoppingList p s e w))
  = console w
    ++ match fst (generateShoppingList p s e w) with
       | Thrown err => [err]
       | Returned _ => []
       end.
Proof.
  exact (console_after_call w p s e).
Qed.

(** X4. The outcome of a call can be read off the last request it sent, and
    no request before the last one had failed: the call sends nothing
    after a failure. *)
Theorem no_request_after_a_failure w (p s e : string) :
  exists pre last,
    new_requests w (snd (generateShoppingList p s e w)) = pre ++ [last]
    /\ Forall (fun x => snd x = None) pre
    /\ match last with
       | (GetUser, _) =>
           fst (generateShoppingList p s e w)
           = Thrown (JsError "Not authenticated")
       | (_, Some err) => fst (generateShoppingList p s e w) = Thrown err
       | (_, None) => exists sm, fst (generateShoppingList p s e w) = Returned sm
       end.
Proof.
  assert (Hok : forall ids : list string,
             Forall (fun x : Request number * option Error => snd x = None)
                    (map ok_fetch ids)).
  { intros ids. rewrite Forall_map. apply Forall_forall. now intros. }
  destruct (generate_run w p s e) as (out & w1 & HR & ->).
  destruct HR; cbn [fst snd]; rewrite ?new_requests_printed;
    rewrite ?new_requests_logged, ?new_requests_written.
  - exists [], (GetUser, fault_now w). repeat split; auto.
  - exists [ok GetUser], (failed (SelectMealPlanEntries p s e) err).
    repeat split; auto.
  - exists ([ok GetUser; ok (SelectMealPlanEntries p s e)] ++ map ok_fetch pre),
           (failed (SelectRecipeIngredients recipeId) err).
    rewrite <- app_assoc. repeat split; auto.
    apply Forall_app. split; [repeat constructor|apply Hok].
  - exists (reads_of w p s e),
           (failed (InsertShoppingList (new_list user p s e)) err).
    repeat split; auto.
    unfold reads_of. apply Forall_app. split; [repeat constructor|apply Hok].
  - exists (reads_of w p s e ++ [ok (InsertShoppingList (new_list user p s e))]),
           (failed (InsertShoppingListItems (new_item_rows w p s e)) err).
    rewrite <- app_assoc. repeat split; auto.
    unfold reads_of. repeat (apply Forall_app; split);
      try apply Hok; repeat constructor.
  - exists (reads_of w p s e ++ [ok (InsertShoppingList (new_list user p s e))]),
           (ok (InsertShoppingListItems (new_item_rows w p s e))).
    rewrite <- app_assoc. split; [reflexivity|]. split.
    + unfold reads_of. repeat (apply Forall_app; split);
        try apply Hok; repeat constructor.
    + eexists. reflexivity.
Qed.

(** X5. A call asks for the user first, then reads, then writes: no select
    follows an insert, and there are at most two inserts. *)
Theorem reads_come_before_writes w (p s e : string) :
  exists o reads writes,
    new_requests w (snd (generateShoppingList p s e w))
    = (GetUser, o) :: reads ++ writes
    /\ Forall (fun x => is_read (fst x) = true) reads
    /\ Forall (fun x => is_write (fst x) = true) writes
    /\ length writes <= 2.
Proof.
  assert (Hok : forall ids : list string,
             Forall (fun x : Request number * option Error =>
                       is_read (fst x) = true) (map ok_fetch ids)).
  { intros ids. rewrite Forall_map. apply Forall_forall. now intros. }
  destruct (generate_run w p s e) as (out & w1 & HR & ->).
  destruct HR; cbn [fst snd]; rewrite ?new_requests_printed;
    rewrite ?new_requests_logged, ?new_requests_written;
    [ exists (fault_now w), [], []
    | exists None, [failed (SelectMealPlanEntries p s e) err], []
    | exists None,
        (ok (SelectMealPlanEntries p s e)
         :: map ok_fetch pre
            ++ [failed (SelectRecipeIngredients recipeId) err]),
        []
    | exists None,
        (ok (SelectMealPlanEntries p s e)
         :: map ok_fetch (fetch_ids (selected_entries w p s e))),
        [failed (InsertShoppingList (new_list user p s e)) err]
    | exists None,
        (ok (SelectMealPlanEntries p s e)
         :: map ok_fetch (fetch_ids (selected_entries w p s e))),
        [ok (InsertShoppingList (new_list user p s e));
         failed (InsertShoppingListItems (new_item_rows w p s e)) err]
    | exists None,
        (ok (SelectMealPlanEntries p s e)
         :: map ok_fetch (fetch_ids (selected_entries w p s e))),
        [ok (InsertShoppingList (new_list user p s e));
         ok (InsertShoppingListItems (new_item_rows w p s e))] ];
    (split; [rewrite ?app_nil_r; reflexivity|]);
    (split;
     [repeat first [ apply Hok
                   | apply Forall_app; split
                   | constructor; [reflexivity|]
                   | constructor ]|]);
    (split; [repeat constructor | simpl; lia]).
Qed.

End Failures.

(** * What a successful call leaves *)

Section Shape.

Context {number : Type} `{JsNumber number}.

Implicit Types (w : World number) (d : Dict number) (t : Tuple number).

(** The summary and the rows of a call that returned. *)
Lemma returned_rows w (p s e : string) (sm : Summary) w' :
  generateShoppingList p s e w = (Returned sm, w') ->
  success sm = true
  /\ itemCount sm = length (new_items w w')
  /\ Forall (fun row => shopping_list_id row = listId sm
                        /\ is_purchased (item_fields row) = false)
            (new_items w w').
Proof.
  intros Hrun. apply generate_returned in Hrun.
  destruct Hrun as (user & _ & -> & ->).
  rewrite new_items_written. unfold new_item_rows.
  cbn [success itemCount listId]. rewrite length_map.
  split; [reflexivity|split; [reflexivity|]].
  rewrite Forall_map. unfold merged_items, shoppingListItems.
  rewrite Forall_map. apply Forall_forall. intros [k b] _. now split.
Qed.

(** X7. The count returned is the number of rows inserted; each row is
    unpurchased and carries the identifier returned. *)
Theorem item_count_is_rows_inserted w (p s e : string) (sm : Summary) w' :
  generateShoppingList p s e w = (Returned sm, w') ->
  success sm = true
  /\ itemCount sm = length (new_items w w')
  /\ Forall (fun row => shopping_list_id row = listId sm
                        /\ is_purchased (item_fields row) = false)
            (new_items w w').
Proof.
  exact (returned_rows w p s e sm w').
Qed.

Lemma fetched_recipes_app (a b : list (Request number * option Error)) :
  fetched_recipes (a ++ b) = fetched_recipes a ++ fetched_recipes b.
Proof. apply flat_map_app. Qed.

Lemma fetched_recipes_ok (ids : list string) :
  fetched_recipes (number := number) (map ok_fetch ids) = ids.
Proof.
  induction ids as [|r ids IH]; [reflexivity|].
  cbn [map]. change (fetched_recipes (ok_fetch r :: map ok_fetch ids))
    with (r :: fetched_recipes (number := number) (map ok_fetch ids)).
  now rewrite IH.
Qed.

Lemma fetch_ids_columns (rows : list (MealPlanEntryRow number)) :
  fetch_ids (map entry_columns rows) = recipes_of rows.
Proof.
  induction rows as [|row rows IH]; [reflexivity|].
  cbn [map]. unfold fetch_ids, recipes_of in *. cbn [flat_map].
  rewrite IH. f_equal.
  unfold skipped, entry_columns. cbn [recipe_id].
  destruct (entry_recipe_id row) as [[|c r]|]; reflexivity.
Qed.

(** X8. A call that returns has fetched the ingredients once for every
    selected entry that has a recipe, in the order of the entries: a
    recipe planned twice is fetched twice. *)
Theorem one_fetch_per_entry_with_recipe w (p s e : string) (sm : Summary) w' :
  generateShoppingList p s e w = (Returned sm, w') ->
  fetched_recipes (new_requests w w')
  = recipes_of (filter (selected p s e) (meal_plan_entries w)).
Proof.
  intros Hrun. apply generate_returned in Hrun.
  destruct Hrun as (user & _ & _ & ->).
  rewrite new_requests_written. unfold reads_of.
  rewrite !fetched_recipes_app, fetched_recipes_ok.
  unfold selected_entries. rewrite fetch_ids_columns.
  cbn. now rewrite app_nil_r.
Qed.

Lemma nodup_skip (k : string) (a b : list string) :
  In k b -> nodup string_dec (a ++ k :: b) = nodup string_dec (a ++ b).
Proof.
  intros Hk. induction a as [|x a IH]; cbn [app nodup].
  - destruct (in_dec string_dec k b); [reflexivity|contradiction].
  - rewrite IH.
    destruct (in_dec string_dec x (a ++ k :: b)) as [Hx|Hx];
      destruct (in_dec string_dec x (a ++ b)) as [Hy|Hy];
      try reflexivity; exfalso.
    + apply Hy. apply in_app_or in Hx. apply in_or_app.
      destruct Hx as [Hx|[<-|Hx]]; auto.
    + apply Hx. apply in_app_or in Hy. apply in_or_app.
      destruct Hy as [Hy|Hy]; [now left|right; now right].
Qed.

Lemma first_seen_NoDup (l : list string) : NoDup l -> first_seen l = l.
Proof.
  intros Hnd. unfold first_seen.
  rewrite nodup_fixed_point; [apply rev_involutive|now apply NoDup_rev].
Qed.

Lemma first_seen_known (a b : list string) (k : string) :
  In k a -> first_seen (a ++ k :: b) = first_seen (a ++ b).
Proof.
  intros Hk. unfold first_seen. f_equal.
  rewrite !rev_app_distr. cbn [rev]. rewrite <- app_assoc. cbn [app].
  apply nodup_skip. now rewrite <- in_rev.
Qed.

(** The keys of [ingredients] after a pass: those it had, then the new
    ones in the order in which the pass first met them. *)
Lemma keys_visit (ts : list (Tuple number)) d :
  NoDup (map fst d) ->
  map fst (visit d ts)
  = first_seen (map fst d ++ map (fun t => key_of (snd t)) ts).
Proof.
  revert d. induction ts as [|[sv i] ts IH]; intros d Hnd.
  - cbn [map visit fold_left]. rewrite app_nil_r. symmetry.
    now apply first_seen_NoDup.
  - change (visit d ((sv, i) :: ts)) with (visit (accumulate sv d i) ts).
    rewrite IH by now apply NoDup_accumulate.
    rewrite keys_accumulate. cbn [map snd].
    destruct (get (key_of i) d) as [b|] eqn:Hg.
    + symmetry. apply first_seen_known.
      apply get_In in Hg. apply (in_map fst) in Hg. exact Hg.
    + now rewrite <- app_assoc.
Qed.

(** X9. The items of a call that returns come one per distinct key, in the
    order in which the keys were first met, each named by the text of its
    key before the first separator. *)
Theorem items_in_order_of_first_visit w (p s e : string) (sm : Summary) w' :
  generateShoppingList p s e w = (Returned sm, w') ->
  map (fun row => product_name (item_fields row)) (new_items w w')
  = map (Js.before Js.bar) (first_seen (visited_keys w p s e))
  /\ itemCount sm = length (first_seen (visited_keys w p s e)).
Proof.
  intros Hrun. apply generate_returned in Hrun.
  destruct Hrun as (user & _ & -> & ->).
  rewrite new_items_written.
  assert (Hkeys : map fst (aggregate (fetched_for w (selected_entries w p s e)))
                  = first_seen (visited_keys w p s e)).
  { unfold aggregate. rewrite aggregate_from_visit, keys_visit by constructor.
    reflexivity. }
  rewrite <- Hkeys. unfold new_item_rows, merged_items, shoppingListItems.
  cbn [itemCount]. rewrite !map_map, !length_map. split; [|reflexivity].
  apply map_ext. intros [k b]. cbn. apply JsFacts.hd_split.
Qed.

Lemma split_without_sep (sep : ascii) (a : string) :
  Js.contains sep a = false -> Js.split sep a = [a].
Proof.
  induction a as [|c a IH]; cbn [Js.contains Js.split]; [reflexivity|].
  destruct (Ascii.eqb c sep); cbn [orb]; [discriminate|].
  intros Hc. now rewrite IH.
Qed.

Lemma split_append (sep : ascii) (a b : string) :
  Js.contains sep a = false ->
  Js.split sep (a ++ String sep b) = a :: Js.split sep b.
Proof.
  induction a as [|c a IH]; cbn [Js.contains Js.split append].
  - now rewrite Ascii.eqb_refl.
  - destruct (Ascii.eqb c sep); cbn [orb]; [discriminate|].
    intros Hc. now rewrite IH.
Qed.

(** X11. When neither the name nor the text of the unit has the separator in
    it, splitting the key gives back exactly the two of them. *)
Theorem split_key_gives_name_and_unit (i : RecipeIngredient number) :
  Js.contains Js.bar (ingredient_name i) = false ->
  Js.contains Js.bar (Js.template (unit i)) = false ->
  Js.split Js.bar (key_of i) = [ingredient_name i; Js.template (unit i)].
Proof.
  intros Hn Hu. unfold key_of.
  change ("|" ++ Js.template (unit i))%string
    with (String Js.bar (Js.template (unit i))).
  rewrite split_append by assumption.
  now rewrite split_without_sep.
Qed.

End Shape.

(** * Ingredients whose key splits back *)

Section Separable.

Context {number : Type} `{JsNumber number}.

Implicit Types (w : World number) (t : Tuple number).

(** What a call visits comes from the table of ingredients. *)
Lemma visited_from_table w (es : list (MealEntry number)) t :
  In t (tuples (fetched_for w es)) ->
  exists row, In row (recipe_ingredients w) /\ snd t = ingredient_columns row.
Proof.
  unfold tuples, fetched_for. rewrite flat_map_concat_map, map_map.
  rewrite <- flat_map_concat_map. intros Hin.
  apply in_flat_map in Hin. destruct Hin as (en & _ & Hin).
  cbn [fst snd] in Hin. destruct (skipped en); [destruct Hin|].
  apply in_map_iff in Hin. destruct Hin as (i & <- & Hin). cbn [snd].
  destruct (recipe_id en) as [rid|]; [|destruct Hin].
  unfold ingredients_of in Hin. apply in_map_iff in Hin.
  destruct Hin as (row & <- & Hin). apply filter_In in Hin.
  exists row. now split.
Qed.

Lemma separable_visited w (es : list (MealEntry number)) :
  separable_table w ->
  Forall (fun t => separable (snd t) = true) (tuples (fetched_for w es)).
Proof.
  intros Hsep. apply Forall_forall. intros t Ht.
  destruct (visited_from_table _ _ _ Ht) as (row & Hrow & ->).
  unfold separable_table in Hsep. rewrite Forall_forall in Hsep. auto.
Qed.

Lemma inserted_fields w (p s e : string) :
  map item_fields (new_item_rows w p s e) = merged_items w p s e.
Proof. apply item_fields_with_list_id. Qed.

(** X13. When no ingredient of the table has the separator in its name or the
    text ["null"] as its unit, no two items a call inserts have the same
    name and unit. *)
Theorem separable_table_distinct_items w (p s e : string) :
  separable_table w ->
  NoDup (map (fun row => name_unit (item_fields row))
             (new_items w (snd (generateShoppingList p s e w)))).
Proof.
  intros Hsep.
  destruct (new_items_cases w p s e) as [-> | ->]; [constructor|].
  rewrite <- map_map, inserted_fields.
  apply separable_items_NoDup. now apply separable_visited.
Qed.

(** X14. When no ingredient of the table has the separator in its name or
    the text ["null"] as its unit, every inserted item has the name and
    the unit of an ingredient that was visited, unchanged, and its
    quantity is the sum, in the order of the visit, of quantity times
    servings over the visited ingredients with that name and that unit. *)
Theorem separable_table_item_is_sum w (p s e : string)
    (row : ShoppingListItemRow number) :
  separable_table w ->
  In row (new_items w (snd (generateShoppingList p s e w))) ->
  (exists t, In t (visited w p s e)
             /\ product_name (item_fields row) = ingredient_name (snd t)
             /\ item_unit (item_fields row) = unit (snd t))
  /\ item_quantity (item_fields row)
     = total (filter (has_name_unit (product_name (item_fields row))
                                    (item_unit (item_fields row)))
                     (visited w p s e)).
Proof.
  intros Hsep Hin.
  destruct (new_items_cases w p s e) as [Hn|Hn]; rewrite Hn in Hin;
    [destruct Hin|].
  apply (in_map item_fields) in Hin. rewrite inserted_fields in Hin.
  pose proof (separable_visited w (selected_entries w p s e) Hsep) as Hv.
  split; [|now apply separable_item_total].
  unfold merged_items, shoppingListItems in Hin. apply in_map_iff in Hin.
  destruct Hin as ([k b] & <- & Hin).
  destruct (separable_item _ _ _ Hv Hin) as (t & rest & Hf & _ & Hnu & _).
  exists t. injection Hnu as Hname Hunit. repeat split; auto.
  assert (Ht : In t (filter (has_key k) (visited w p s e)))
    by (unfold visited; rewrite Hf; now left).
  now apply filter_In in Ht.
Qed.

(** X12. Two ingredients without the separator in their names and without
    the text ["null"] as unit end up in one item exactly when they have
    the same name and the same unit. *)
Theorem separable_ingredients_merge_by_name_and_unit (t1 t2 : Tuple number) :
  separable (snd t1) = true -> separable (snd t2) = true ->
  (merged_together t1 t2 <->
   ingredient_name (snd t1) = ingredient_name (snd t2)
   /\ unit (snd t1) = unit (snd t2)).
Proof.
  exact (separable_merge_iff t1 t2).
Qed.

(** X17. For a plan, two bounds and a date written [YYYY-MM-DD], the filter of
    the entries query keeps a row of the plan exactly when its date is on
    or after the first bound and on or before the second, by the
    calendar. *)
Theorem query_range_is_calendar_range (p : string) (from to on : Iso.Date)
    (rid : option string) (sv : option number) :
  Iso.fits from -> Iso.fits to -> Iso.fits on ->
  selected p (Iso.iso from) (Iso.iso to)
           (mkEntryRow p rid (Iso.iso on) sv)
  = Iso.on_or_before from on && Iso.on_or_before on to.
Proof.
  exact (selected_iso p from to on rid sv).
Qed.

End Separable.

(** * The order of the rows *)

Section RowOrder.

Context {number : Type} `{JsNumber number}.

Implicit Types (w : World number) (t : Tuple number).

Lemma filter_perm {Row : Type} (keep : Row -> bool) (rows rows' : list Row) :
  Permutation rows rows' ->
  Permutation (filter keep rows) (filter keep rows').
Proof.
  induction 1 as [|x l l' _ IH|x y l|l l' l'' _ IH1 _ IH2]; cbn [filter].
  - constructor.
  - destruct (keep x); [now constructor|assumption].
  - destruct (keep x), (keep y); try reflexivity. constructor.
  - now transitivity (filter keep l').
Qed.

Lemma flat_map_perm {A B : Type} (f g : A -> list B) (l l' : list A) :
  (forall x, Permutation (f x) (g x)) ->
  Permutation l l' -> Permutation (flat_map f l) (flat_map g l').
Proof.
  intros Hfg Hl. transitivity (flat_map f l').
  - now apply Permutation_flat_map.
  - clear Hl. induction l' as [|x l' IH]; cbn [flat_map]; [constructor|].
    now apply Permutation_app.
Qed.

(** Rows in another order are visited in another order. *)
Lemma visited_perm w1 w2 (p s e : string) :
  Permutation (meal_plan_entries w1) (meal_plan_entries w2) ->
  Permutation (recipe_ingredients w1) (recipe_ingredients w2) ->
  Permutation (visited w1 p s e) (visited w2 p s e).
Proof.
  intros He Hi. unfold visited, tuples, fetched_for, selected_entries.
  rewrite !flat_map_concat_map, !map_map, <- !flat_map_concat_map.
  apply flat_map_perm.
  - intros row. cbn [fst snd]. destruct (skipped (entry_columns row));
      [constructor|].
    apply Permutation_map.
    destruct (recipe_id (entry_columns row)); [|constructor].
    unfold ingredients_of. apply Permutation_map. now apply filter_perm.
  - now apply filter_perm.
Qed.

(** On separable ingredients the names and units of the items are those
    of the ingredients visited. *)
Lemma separable_names
    (fetched : list (MealEntry number * list (RecipeIngredient number)))
    (nu : string * option string) :
  Forall (fun t => separable (snd t) = true) (tuples fetched) ->
  (In nu (map name_unit (shoppingListItems (aggregate fetched))) <->
   exists t, In t (tuples fetched)
             /\ nu = (ingredient_name (snd t), unit (snd t))).
Proof.
  intros Hsep. unfold shoppingListItems. rewrite map_map. split.
  - intros Hin. apply in_map_iff in Hin. destruct Hin as ([k b] & <- & Hin).
    destruct (separable_item _ _ _ Hsep Hin) as (t & rest & Hf & _ & Hnu & _).
    exists t. split; [|exact Hnu].
    assert (Ht : In t (filter (has_key k) (tuples fetched)))
      by (rewrite Hf; now left).
    now apply filter_In in Ht.
  - intros (t & Ht & ->).
    destruct (key_of_visited _ _ Ht) as (b & Hb).
    apply in_map_iff. exists (key_of (snd t), b). split; [|exact Hb].
    destruct (separable_item _ _ _ Hsep Hb)
      as (t' & rest & Hf & Hk & Hnu & _).
    rewrite Hnu.
    assert (Ht' : In t' (filter (has_key (key_of (snd t))) (tuples fetched)))
      by (rewrite Hf; now left).
    apply filter_In in Ht'. destruct Ht' as [Ht' _].
    rewrite Forall_forall in Hsep.
    destruct (key_of_separable (snd t) (snd t')) as [Hn Hu]; auto.
    now rewrite Hn, Hu.
Qed.

(** X15. When no ingredient of the table has the separator in its name or
    the text ["null"] as its unit, two calls on worlds whose tables hold
    the same rows in different orders insert items with the same names
    and units, up to their order, and as many of them; and for each name
    and unit the two calls add up the same contributions, each in the
    order of its own visit. *)
Theorem row_order_keeps_names_and_units w1 w2 (p s e : string)
    (u1 u2 : User) :
  session w1 = Some u1 ->
  session w2 = Some u2 ->
  fault_free w1 ->
  fault_free w2 ->
  separable_table w1 ->
  Permutation (meal_plan_entries w1) (meal_plan_entries w2) ->
  Permutation (recipe_ingredients w1) (recipe_ingredients w2) ->
  Permutation
    (map (fun row => name_unit (item_fields row))
         (new_items w1 (snd (generateShoppingList p s e w1))))
    (map (fun row => name_unit (item_fields row))
         (new_items w2 (snd (generateShoppingList p s e w2))))
  /\ length (new_items w1 (snd (generateShoppingList p s e w1)))
     = length (new_items w2 (snd (generateShoppingList p s e w2)))
  /\ forall n u,
       Permutation
         (map contribution (filter (has_name_unit n u) (visited w1 p s e)))
         (map contribution (filter (has_name_unit n u) (visited w2 p s e))).
Proof.
  intros Hs1 Hs2 Hf1 Hf2 Hsep1 He Hi.
  assert (Hsep2 : separable_table w2).
  { unfold separable_table in *. rewrite Forall_forall in *.
    intros row Hrow. apply Hsep1.
    apply Permutation_in with (l := recipe_ingredients w2);
      [now apply Permutation_sym|assumption]. }
  pose proof (visited_perm w1 w2 p s e He Hi) as Hp.
  assert (Hnames : Permutation
                     (map name_unit (merged_items w1 p s e))
                     (map name_unit (merged_items w2 p s e))).
  { apply NoDup_Permutation.
    - apply separable_items_NoDup. now apply separable_visited.
    - apply separable_items_NoDup. now apply separable_visited.
    - intros nu. unfold merged_items.
      rewrite !separable_names by now apply separable_visited.
      fold (visited w1 p s e). fold (visited w2 p s e).
      split; intros (t & Ht & Hnu); exists t; split; auto.
      + now apply Permutation_in with (l := visited w1 p s e).
      + apply Permutation_in with (l := visited w2 p s e);
          [now apply Permutation_sym|assumption]. }
  rewrite (generate_fault_free w1 p s e u1 Hs1 Hf1).
  rewrite (generate_fault_free w2 p s e u2 Hs2 Hf2).
  cbn [fst snd]. rewrite !new_items_written.
  rewrite <- !(map_map item_fields name_unit), !inserted_fields.
  split; [exact Hnames|]. split.
  - unfold new_item_rows. rewrite !length_map.
    rewrite <- (length_map name_unit (merged_items w1 p s e)).
    rewrite <- (length_map name_unit (merged_items w2 p s e)).
    now apply Permutation_length.
  - intros n u. apply Permutation_map. now apply filter_perm.
Qed.

End RowOrder.

(** * The handler of the planner's button *)

Section CallerFacts.

Context {number : Type} `{JsNumber number}.

Implicit Types (w : World number) (ui : Planner).

(** The handler, by the outcome of the call it makes. *)
Lemma handler_run ui w (plan : MealPlan) :
  mealPlan ui = Some plan ->
  generateShoppingListFromPlan (ui, w) =
  match generateShoppingList (plan_id plan) (start_date plan) (end_date plan) w
  with
  | (Returned result, w1) =>
      (Returned tt,
       (mkPlanner (Some plan) false (toasts ui ++ [success_toast result]), w1))
  | (Thrown err, w1) =>
      (Returned tt,
       (mkPlanner (Some plan) false (toasts ui ++ [failure_toast]),
        printed err w1))
  end.
Proof.
  intros Hplan.
  unfold generateShoppingListFromPlan, ui_bind, try_catch_finally, lift,
    setIsGenerating, toast, console_error.
  cbn [fst snd]. rewrite Hplan. cbn [fst snd mealPlan toasts isGenerating].
  destruct (generateShoppingList _ _ _ w) as [[result|err] w1];
    cbn [fst snd mealPlan toasts isGenerating]; reflexivity.
Qed.

(** X18. The handler never throws.  Without a plan it does nothing; with one
    it ends with [isGenerating] false and exactly one more toast. *)
Theorem handler_never_throws ui w :
  fst (generateShoppingListFromPlan (ui, w)) = Returned tt
  /\ match mealPlan ui with
     | None => snd (generateShoppingListFromPlan (ui, w)) = (ui, w)
     | Some plan =>
         mealPlan (fst (snd (generateShoppingListFromPlan (ui, w))))
         = Some plan
         /\ isGenerating (fst (snd (generateShoppingListFromPlan (ui, w))))
            = false
         /\ exists t,
              toasts (fst (snd (generateShoppingListFromPlan (ui, w))))
              = toasts ui ++ [t]
     end.
Proof.
  destruct (mealPlan ui) as [plan|] eqn:Hplan.
  - rewrite (handler_run ui w plan Hplan).
    destruct (generateShoppingList _ _ _ w) as [[result|err] w1];
      cbn [fst snd mealPlan isGenerating toasts]; eauto.
  - unfold generateShoppingListFromPlan. cbn [fst]. rewrite Hplan.
    split; reflexivity.
Qed.

(** X19. When the call returns, the toast announces the number of rows that
    were inserted, and the world is the one the call left. *)
Theorem success_toast_counts_rows ui w (plan : MealPlan)
    (result : Summary) w1 :
  mealPlan ui = Some plan ->
  generateShoppingList (plan_id plan) (start_date plan) (end_date plan) w
    = (Returned result, w1) ->
  generateShoppingListFromPlan (ui, w) =
  (Returned tt,
   (mkPlanner (Some plan) false
      (toasts ui
       ++ [mkToast "Success"
             ("Shopping list created with "
              ++ decimal (length (new_items w w1)) ++ " items")
             None]),
    w1)).
Proof.
  intros Hplan Hrun. rewrite (handler_run ui w plan Hplan), Hrun.
  destruct (returned_rows _ _ _ _ _ _ Hrun) as (_ & Hcount & _).
  unfold success_toast. now rewrite Hcount.
Qed.

(** X20. When the call throws, whatever the error, the toast is the same
    "Failed to generate shopping list"; the error has been printed twice,
    by the call and by the handler; the tables are as the call left them. *)
Theorem failure_toast_hides_error ui w (plan : MealPlan) (err : Error) w1 :
  mealPlan ui = Some plan ->
  generateShoppingList (plan_id plan) (start_date plan) (end_date plan) w
    = (Thrown err, w1) ->
  fst (snd (generateShoppingListFromPlan (ui, w)))
  = mkPlanner (Some plan) false
      (toasts ui
       ++ [mkToast "Error" "Failed to generate shopping list"
                   (Some "destructive")])
  /\ console (snd (snd (generateShoppingListFromPlan (ui, w))))
     = console w ++ [err; err]
  /\ shopping_lists (snd (snd (generateShoppingListFromPlan (ui, w))))
     = shopping_lists w1
  /\ shopping_list_items (snd (snd (generateShoppingListFromPlan (ui, w))))
     = shopping_list_items w1.
Proof.
  intros Hplan Hrun. rewrite (handler_run ui w plan Hplan), Hrun.
  cbn [fst snd]. repeat split.
  pose proof (console_after_call w (plan_id plan) (start_date plan)
                (end_date plan)) as Hc.
  rewrite Hrun in Hc. cbn [fst snd] in Hc.
  cbn [console printed]. rewrite Hc, <- app_assoc. reflexivity.
Qed.

(** X21. If the insert of the items fails, the user is told that generating
    failed, and yet one new, empty list is in [shopping_lists]. *)
Theorem failed_generation_can_leave_a_list ui w (plan : MealPlan)
    (rows : list (ShoppingListItemRow number)) (err : Error) :
  mealPlan ui = Some plan ->
  In (InsertShoppingListItems rows, Some err)
     (new_requests w (snd (snd (generateShoppingListFromPlan (ui, w))))) ->
  toasts (fst (snd (generateShoppingListFromPlan (ui, w))))
  = toasts ui ++ [failure_toast]
  /\ length (new_lists w (snd (snd (generateShoppingListFromPlan (ui, w)))))
     = 1
  /\ new_items w (snd (snd (generateShoppingListFromPlan (ui, w)))) = [].
Proof.
  intros Hplan. rewrite (handler_run ui w plan Hplan).
  pose proof (items_insert_failed w (plan_id plan)
                (start_date plan) (end_date plan) rows err) as Hfail.
  destruct (generateShoppingList _ _ _ w) as [[result|err'] w1];
    cbn [fst snd] in *; intros Hin.
  - destruct (Hfail Hin) as (Habs & _). discriminate.
  - change (new_requests w (printed err' w1)) with (new_requests w w1) in Hin.
    destruct (Hfail Hin) as (_ & (user & _ & Hlists) & Hitems & _).
    split; [reflexivity|]. unfold new_lists, new_items.
    cbn [shopping_lists shopping_list_items printed].
    rewrite Hlists, Hitems, skipn_length_app. split; [reflexivity|].
    rewrite <- (app_nil_r (shopping_list_items w)) at 2.
    apply skipn_length_app.
Qed.

End CallerFacts.

(** * Calls, one after another *)

Section Composition.

Context {number : Type} `{JsNumber number}.

Implicit Types (w : World number).

(** X6. A call never touches the session or the two tables it reads, and it
    only appends to the two tables it writes: at most one list, and items
    only together with a list. *)
Theorem call_only_appends w (p s e : string) :
  let w' := snd (generateShoppingList p s e w) in
  session w' = session w
  /\ meal_plan_entries w' = meal_plan_entries w
  /\ recipe_ingredients w' = recipe_ingredients w
  /\ exists lists items,
       shopping_lists w' = shopping_lists w ++ lists
       /\ shopping_list_items w' = shopping_list_items w ++ items
       /\ length lists <= 1
       /\ (items <> [] -> length lists = 1).
Proof.
  destruct (generate_run w p s e) as (out & w1 & HR & ->).
  destruct HR; cbn [snd session meal_plan_entries recipe_ingredients
                      shopping_lists shopping_list_items printed logged written];
    repeat (split; [reflexivity|]).
  1-4: exists [], []; rewrite !app_nil_r; repeat split; auto; contradiction.
  - eexists [_], []. rewrite app_nil_r. repeat split; auto.
  - eexists [_], _. repeat split; auto.
Qed.

(** X10. The quantity of every inserted item is the sum, in the order of the
    visit, of quantity times servings over the visited ingredients whose
    key is the key of the item; there is at least one. *)
Theorem inserted_item_is_key_total w (p s e : string)
    (row : ShoppingListItemRow number) :
  In row (new_items w (snd (generateShoppingList p s e w))) ->
  exists key t rest,
    filter (has_key key) (visited w p s e) = t :: rest
    /\ product_name (item_fields row) = Js.before Js.bar key
    /\ item_quantity (item_fields row) = total (t :: rest)
    /\ item_unit (item_fields row) = unit (snd t).
Proof.
  intros Hin.
  destruct (new_items_cases w p s e) as [Hn|Hn]; rewrite Hn in Hin;
    [destruct Hin|].
  unfold new_item_rows, merged_items, shoppingListItems in Hin.
  rewrite map_map in Hin. apply in_map_iff in Hin.
  destruct Hin as ([k b] & <- & Hin).
  destruct (bucket_of_key _ _ _ Hin) as (t & rest & Hf & Hq & Hu).
  exists k, t, rest. repeat split; auto.
  cbn. apply JsFacts.hd_split.
Qed.

(** X16. A second call does not reuse the list of the first: after the two
    there are two new lists with the same owner, plan and name, holding
    the same items. *)
Theorem second_call_duplicates_list w (p s e : string) (user : User) :
  session w = Some user ->
  fault_free w ->
  let w1 := snd (generateShoppingList p s e w) in
  let w2 := snd (generateShoppingList p s e w1) in
  (exists id1 id2,
     shopping_lists w2
     = shopping_lists w
       ++ [mkListRow id1 (new_list user p s e);
           mkListRow id2 (new_list user p s e)])
  /\ map item_fields (new_items w1 w2) = map item_fields (new_items w w1)
  /\ length (shopping_list_items w2)
     = length (shopping_list_items w)
       + 2 * length (merged_items w p s e).
Proof.
  intros Hs Hff w1 w2. unfold w2, w1.
  rewrite (generate_fault_free w p s e user Hs Hff). cbn [snd].
  rewrite (generate_fault_free (written w _ _ _) p s e user Hs Hff).
  cbn [snd]. split; [|split].
  - cbn [shopping_lists written]. rewrite <- app_assoc.
    do 2 eexists. reflexivity.
  - rewrite !new_items_written.
    unfold new_item_rows. now rewrite !item_fields_with_list_id.
  - cbn [shopping_list_items written]. rewrite !length_app.
    unfold new_item_rows. rewrite !length_map.
    change (merged_items (written w _ _ _) p s e) with (merged_items w p s e).
    lia.
Qed.

(** The aggregation sees the table of ingredients only through the
    recipes that are fetched. *)
Lemma aggregate_from_same_recipes w1 w2 (es : list (MealEntry number))
    (d : Dict number) :
  (forall rid, In rid (fetch_ids es) ->
     ingredients_of rid (recipe_ingredients w1)
     = ingredients_of rid (recipe_ingredients w2)) ->
  aggregate_from d (fetched_for w1 es) = aggregate_from d (fetched_for w2 es).
Proof.
  revert d. induction es as [|en es IH]; intros d Hsame; [reflexivity|].
  cbn [fetched_for map]. unfold aggregate_from. cbn [fold_left fst snd].
  fold (aggregate_from (number := number)).
  assert (Hrest : forall rid, In rid (fetch_ids es) ->
            ingredients_of rid (recipe_ingredients w1)
            = ingredients_of rid (recipe_ingredients w2)).
  { intros rid Hin. apply Hsame. unfold fetch_ids. cbn [flat_map].
    apply in_or_app. now right. }
  destruct (skipped en) eqn:Hsk; [now apply IH|].
  destruct (recipe_id en) as [rid|] eqn:Hr; [|now apply IH].
  rewrite (Hsame rid); [now apply IH|].
  unfold fetch_ids. cbn [flat_map]. rewrite Hsk, Hr. now left.
Qed.

(** X22. The items a call inserts depend on [recipe_ingredients] only
    through the rows of the recipes that the selected entries reference:
    two worlds with the same entries that agree on those rows get the
    same items. *)
Theorem only_referenced_recipes_matter w1 w2 (p s e : string) (u1 u2 : User) :
  session w1 = Some u1 ->
  session w2 = Some u2 ->
  fault_free w1 ->
  fault_free w2 ->
  meal_plan_entries w1 = meal_plan_entries w2 ->
  (forall rid,
     In rid (recipes_of (filter (selected p s e) (meal_plan_entries w1))) ->
     ingredients_of rid (recipe_ingredients w1)
     = ingredients_of rid (recipe_ingredients w2)) ->
  map item_fields (new_items w1 (snd (generateShoppingList p s e w1)))
  = map item_fields (new_items w2 (snd (generateShoppingList p s e w2))).
Proof.
  intros Hs1 Hs2 Hf1 Hf2 He Hsame.
  rewrite (generate_fault_free w1 p s e u1 Hs1 Hf1).
  rewrite (generate_fault_free w2 p s e u2 Hs2 Hf2).
  cbn [snd]. rewrite !new_items_written.
  unfold new_item_rows. rewrite !item_fields_with_list_id.
  unfold merged_items, aggregate, selected_entries. rewrite <- He.
  f_equal. apply aggregate_from_same_recipes.
  intros rid Hin. apply Hsame. now rewrite <- fetch_ids_columns.
Qed.

Lemma first_seen_In (l : list string) (x : string) :
  In x (first_seen l) <-> In x l.
Proof.
  unfold first_seen. now rewrite <- in_rev, nodup_In, <- in_rev.
Qed.

(** X23. A call that returns reports [itemCount = 0] exactly when it has
    visited no ingredient at all: no selected entry has a recipe, or the
    recipes that are referenced have no ingredient row; and exactly when
    it has inserted no item.  The list row is created all the same: one
    new row in [shopping_lists], whatever the count. *)
Theorem zero_items_iff_nothing_visited w (p s e : string) (sm : Summary) w' :
  generateShoppingList p s e w = (Returned sm, w') ->
  (itemCount sm = 0 <-> visited w p s e = [])
  /\ (itemCount sm = 0 <-> new_items w w' = [])
  /\ length (new_lists w w') = 1
  /\ (exists user,
        session w = Some user
        /\ new_lists w w'
           = [mkListRow (listId sm)
                (mkNewList (id user) p
                   ("Shopping List for " ++ s ++ " to " ++ e)%string)]).
Proof.
  intros Hrun. apply generate_returned in Hrun.
  destruct Hrun as (user & Hs & -> & ->).
  assert (Hlists : new_lists w
                     (written w
                        (shopping_lists w
                         ++ [mkListRow (new_list_id w) (new_list user p s e)])
                        (shopping_list_items w ++ new_item_rows w p s e)
                        (reads_of w p s e
                         ++ [ok (InsertShoppingList (new_list user p s e));
                             ok (InsertShoppingListItems
                                   (new_item_rows w p s e))]))
                   = [mkListRow (new_list_id w) (new_list user p s e)]).
  { unfold new_lists. cbn [shopping_lists written]. apply skipn_length_app. }
  rewrite Hlists.
  cut ((itemCount
          (mkSummary true (new_list_id w) (length (merged_items w p s e))) = 0
        <-> visited w p s e = [])
       /\ (itemCount
             (mkSummary true (new_list_id w) (length (merged_items w p s e)))
           = 0
           <-> new_items w
                 (written w
                    (shopping_lists w
                     ++ [mkListRow (new_list_id w) (new_list user p s e)])
                    (shopping_list_items w ++ new_item_rows w p s e)
                    (reads_of w p s e
                     ++ [ok (InsertShoppingList (new_list user p s e));
                         ok (InsertShoppingListItems
                               (new_item_rows w p s e))])) = [])).
  { intros [H1 H2]. split; [exact H1|]. split; [exact H2|].
    split; [reflexivity|]. exists user. split; [exact Hs|reflexivity]. }
  rewrite new_items_written. cbn [itemCount].
  assert (Hlen : length (merged_items w p s e)
                 = length (first_seen (visited_keys w p s e))).
  { unfold merged_items, shoppingListItems, aggregate.
    rewrite length_map, <- (length_map fst).
    now rewrite aggregate_from_visit, keys_visit by constructor. }
  split; split.
  - rewrite Hlen. intros Hz. apply length_zero_iff_nil in Hz.
    destruct (visited w p s e) as [|t ts] eqn:Hv; [reflexivity|].
    exfalso.
    assert (Hin : In (key_of (snd t)) (first_seen (visited_keys w p s e))).
    { apply first_seen_In. unfold visited_keys. rewrite Hv. now left. }
    rewrite Hz in Hin. destruct Hin.
  - intros Hv. rewrite Hlen. unfold visited_keys. now rewrite Hv.
  - intros Hz. unfold new_item_rows.
    apply length_zero_iff_nil in Hz. now rewrite Hz.
  - intros Hn. unfold new_item_rows in Hn.
    apply (f_equal (@length _)) in Hn. now rewrite length_map in Hn.
Qed.

End Composition.

(** * The further properties on concrete data *)

Module MoreSamples.

Import Sample More.

Lemma scenario_returns :
  call scenario = (Returned (mkSummary true "list-0" 3), snd (call scenario)).
Proof. vm_compute. reflexivity. Defined.

Lemma scenario_separable : separable_table scenario.
Proof. repeat constructor. Defined.

(** The scenario when the insert of the list fails. *)
Lemma create_failure_writes_nothing_witness :
  In (InsertShoppingList
        (mkNewList "alice" "P" "Shopping List for 2024-01-01 to 2024-01-07"),
      Some (StoreError "503"))
     (new_requests create_down (snd (call create_down)))
  /\ fst (call create_down) = Thrown (StoreError "503")
  /\ shopping_lists (snd (call create_down)) = [].
Proof.
  assert (Hin : In (InsertShoppingList
                      (mkNewList "alice" "P"
                         "Shopping List for 2024-01-01 to 2024-01-07"),
                    Some (StoreError "503"))
                   (new_requests create_down (snd (call create_down)))).
  { vm_compute. do 4 right. left. reflexivity. }
  pose proof (create_failure_writes_nothing create_down
                "P" "2024-01-01" "2024-01-07" _ _ Hin)
    as (Hthrown & Hlists & _).
  split; [exact Hin|]. split; [exact Hthrown|exact Hlists].
Defined.

(** The scenario when the insert of the items fails. *)
Lemma insert_failure_leaves_empty_list_witness :
  In (InsertShoppingListItems
        (new_item_rows insert_down "P" "2024-01-01" "2024-01-07"),
      Some (StoreError "503"))
     (new_requests insert_down (snd (call insert_down)))
  /\ fst (call insert_down) = Thrown (StoreError "503")
  /\ shopping_list_items (snd (call insert_down)) = []
  /\ length (shopping_lists (snd (call insert_down))) = 1.
Proof.
  assert (Hin : In (InsertShoppingListItems
                      (new_item_rows insert_down "P" "2024-01-01" "2024-01-07"),
                    Some (StoreError "503"))
                   (new_requests insert_down (snd (call insert_down)))).
  { vm_compute. do 5 right. left. reflexivity. }
  pose proof (insert_failure_leaves_empty_list insert_down
                "P" "2024-01-01" "2024-01-07" _ _ Hin)
    as (Hthrown & (user & _ & Hlists) & Hitems & _).
  split; [exact Hin|]. split; [exact Hthrown|]. split; [exact Hitems|].
  unfold call. rewrite Hlists. reflexivity.
Defined.

(** The three items of the scenario. *)
Lemma item_count_is_rows_inserted_witness :
  call scenario = (Returned (mkSummary true "list-0" 3), snd (call scenario))
  /\ length (new_items scenario (snd (call scenario))) = 3.
Proof.
  pose proof (item_count_is_rows_inserted scenario
                "P" "2024-01-01" "2024-01-07" _ _ scenario_returns)
    as (_ & Hcount & _).
  split; [exact scenario_returns|]. symmetry. exact Hcount.
Defined.

(** The scenario fetches recipe A, then recipe B. *)
Lemma one_fetch_per_entry_with_recipe_witness :
  call scenario = (Returned (mkSummary true "list-0" 3), snd (call scenario))
  /\ fetched_recipes (new_requests scenario (snd (call scenario))) = ["A"; "B"].
Proof.
  split; [exact scenario_returns|].
  exact (one_fetch_per_entry_with_recipe scenario
           "P" "2024-01-01" "2024-01-07" _ _ scenario_returns).
Defined.

(** Rice comes first, although recipe B has it too. *)
Lemma items_in_order_of_first_visit_witness :
  call scenario = (Returned (mkSummary true "list-0" 3), snd (call scenario))
  /\ map (fun row => product_name (item_fields row))
         (new_items scenario (snd (call scenario)))
     = ["Rice"; "Egg"; "Onion"].
Proof.
  split; [exact scenario_returns|].
  exact (proj1 (items_in_order_of_first_visit scenario
                  "P" "2024-01-01" "2024-01-07" _ _ scenario_returns)).
Defined.

(** The key of flour in grams. *)
Lemma split_key_gives_name_and_unit_witness :
  Js.contains Js.bar (ingredient_name flour_g) = false
  /\ Js.contains Js.bar (Js.template (unit flour_g)) = false
  /\ Js.split Js.bar (key_of flour_g) = ["Flour"; "g"].
Proof.
  split; [reflexivity|]. split; [reflexivity|].
  exact (split_key_gives_name_and_unit flour_g eq_refl eq_refl).
Defined.

(** Flour in grams and flour in cups are not merged. *)
Lemma separable_ingredients_merge_by_name_and_unit_witness :
  separable flour_g = true
  /\ separable flour_cup = true
  /\ ~ merged_together (Some 1%Z, flour_g) (Some 1%Z, flour_cup).
Proof.
  split; [reflexivity|]. split; [reflexivity|].
  intros Hm.
  apply (proj1 (separable_ingredients_merge_by_name_and_unit
                  (Some 1%Z, flour_g) (Some 1%Z, flour_cup)
                  eq_refl eq_refl)) in Hm.
  destruct Hm as [_ Hu]. discriminate.
Defined.

(** The items of the scenario have three different names. *)
Lemma separable_table_distinct_items_witness :
  separable_table scenario
  /\ NoDup (map (fun row => name_unit (item_fields row))
                (new_items scenario (snd (call scenario)))).
Proof.
  split; [exact scenario_separable|].
  exact (separable_table_distinct_items scenario
           "P" "2024-01-01" "2024-01-07" scenario_separable).
Defined.

(** The rice of the scenario: 100 g for two and 50 g for one. *)
Lemma separable_table_item_is_sum_witness :
  separable_table scenario
  /\ In (mkItemRow (mkItem "Rice" 250%Z (Some "g") false) "list-0")
        (new_items scenario (snd (call scenario)))
  /\ 250%Z
     = total (filter (has_name_unit "Rice" (Some "g"))
                     (visited scenario "P" "2024-01-01" "2024-01-07")).
Proof.
  assert (Hin : In (mkItemRow (mkItem "Rice" 250%Z (Some "g") false) "list-0")
                   (new_items scenario (snd (call scenario)))).
  { vm_compute. left. reflexivity. }
  split; [exact scenario_separable|]. split; [exact Hin|].
  exact (proj2 (separable_table_item_is_sum scenario
                  "P" "2024-01-01" "2024-01-07" _ scenario_separable Hin)).
Defined.

(** The scenario with the rows of both tables reversed. *)
Lemma row_order_keeps_names_and_units_witness :
  separable_table scenario
  /\ Permutation (meal_plan_entries scenario) (meal_plan_entries reordered)
  /\ Permutation (recipe_ingredients scenario) (recipe_ingredients reordered)
  /\ Permutation (map name_unit (inserted scenario))
                 (map name_unit (inserted reordered)).
Proof.
  assert (He : Permutation (meal_plan_entries scenario)
                           (meal_plan_entries reordered))
    by apply Permutation_rev.
  assert (Hi : Permutation (recipe_ingredients scenario)
                           (recipe_ingredients reordered))
    by apply Permutation_rev.
  pose proof (row_order_keeps_names_and_units scenario reordered
                "P" "2024-01-01" "2024-01-07" alice alice eq_refl eq_refl
                (Samples.fault_free_never _ _ _)
                (Samples.fault_free_never _ _ _)
                scenario_separable He Hi) as (Hnames & _ & _).
  split; [exact scenario_separable|]. split; [exact He|]. split; [exact Hi|].
  unfold inserted, call. rewrite !map_map. exact Hnames.
Defined.

(** The button, pressed on the scenario. *)
Lemma success_toast_counts_rows_witness :
  mealPlan planner = Some week
  /\ toasts (fst (snd (generateShoppingListFromPlan (planner, scenario))))
     = [mkToast "Success" "Shopping list created with 3 items" None].
Proof.
  split; [reflexivity|].
  rewrite (success_toast_counts_rows planner scenario week _ _
             eq_refl scenario_returns).
  reflexivity.
Defined.

(** The button, pressed when the entries query fails. *)
Lemma failure_toast_hides_error_witness :
  mealPlan planner = Some week
  /\ fst (call entries_down) = Thrown (StoreError "503")
  /\ console (snd (snd (generateShoppingListFromPlan (planner, entries_down))))
     = [StoreError "503"; StoreError "503"].
Proof.
  assert (Hrun : generateShoppingList (plan_id week) (start_date week)
                   (end_date week) entries_down
                 = (Thrown (StoreError "503"), snd (call entries_down)))
    by (vm_compute; reflexivity).
  split; [reflexivity|]. split; [reflexivity|].
  exact (proj1 (proj2 (failure_toast_hides_error planner entries_down week
                         _ _ eq_refl Hrun))).
Defined.

(** The button, pressed when the insert of the items fails. *)
Lemma failed_generation_can_leave_a_list_witness :
  mealPlan planner = Some week
  /\ toasts (fst (snd (generateShoppingListFromPlan (planner, insert_down))))
     = [failure_toast]
  /\ length (new_lists insert_down
               (snd (snd (generateShoppingListFromPlan (planner, insert_down)))))
     = 1.
Proof.
  assert (Hin : In (InsertShoppingListItems
                      (new_item_rows insert_down "P" "2024-01-01" "2024-01-07"),
                    Some (StoreError "503"))
                   (new_requests insert_down
                      (snd (snd (generateShoppingListFromPlan
                                   (planner, insert_down)))))).
  { vm_compute. do 5 right. left. reflexivity. }
  pose proof (failed_generation_can_leave_a_list planner insert_down week
                _ _ eq_refl Hin) as (Htoast & Hlists & _).
  split; [reflexivity|]. split; [exact Htoast|exact Hlists].
Defined.

(** The rice of the scenario, by its key. *)
Lemma inserted_item_is_key_total_witness :
  In (mkItemRow (mkItem "Rice" 250%Z (Some "g") false) "list-0")
     (new_items scenario (snd (call scenario)))
  /\ exists key t rest,
       filter (has_key key) (visited scenario "P" "2024-01-01" "2024-01-07")
       = t :: rest
       /\ "Rice" = Js.before Js.bar key
       /\ 250%Z = total (t :: rest)
       /\ Some "g" = unit (snd t).
Proof.
  assert (Hin : In (mkItemRow (mkItem "Rice" 250%Z (Some "g") false) "list-0")
                   (new_items scenario (snd (call scenario)))).
  { vm_compute. left. reflexivity. }
  split; [exact Hin|].
  exact (inserted_item_is_key_total scenario
           "P" "2024-01-01" "2024-01-07" _ Hin).
Defined.

(** The scenario, generated twice. *)
Lemma second_call_duplicates_list_witness :
  session scenario = Some alice
  /\ fault_free scenario
  /\ length (shopping_list_items (snd (call (snd (call scenario))))) = 6.
Proof.
  pose proof (second_call_duplicates_list scenario
                "P" "2024-01-01" "2024-01-07" alice eq_refl
                (Samples.fault_free_never _ _ _)) as (_ & _ & Hlen).
  split; [reflexivity|]. split; [apply Samples.fault_free_never|exact Hlen].
Defined.

(** The first week of January 2024 and the fifth of the month. *)
Lemma query_range_is_calendar_range_witness :
  Iso.fits (Iso.mkDate 2024 1 1)
  /\ Iso.fits (Iso.mkDate 2024 1 7)
  /\ Iso.fits (Iso.mkDate 2024 1 5)
  /\ selected "P" "2024-01-01" "2024-01-07"
       (mkEntryRow "P" (Some "B") "2024-01-05" (Some 1%Z)) = true.
Proof.
  assert (Hfits : forall d, d < 32 -> Iso.fits (Iso.mkDate 2024 1 d)).
  { intros d Hd. unfold Iso.fits. cbn [Iso.year Iso.month Iso.day].
    repeat split; lia. }
  split; [apply Hfits; lia|]. split; [apply Hfits; lia|].
  split; [apply Hfits; lia|].
  exact (query_range_is_calendar_range
           "P" (Iso.mkDate 2024 1 1) (Iso.mkDate 2024 1 7)
           (Iso.mkDate 2024 1 5) (Some "B") (Some 1%Z)
           (Hfits 1 ltac:(lia)) (Hfits 7 ltac:(lia)) (Hfits 5 ltac:(lia))).
Defined.

(** A recipe that no entry references changes nothing. *)
Lemma only_referenced_recipes_matter_witness :
  session scenario = Some alice
  /\ meal_plan_entries scenario = meal_plan_entries with_saffron
  /\ inserted scenario = inserted with_saffron.
Proof.
  assert (Hsame : forall rid,
            In rid (recipes_of
                      (filter (selected "P" "2024-01-01" "2024-01-07")
                              (meal_plan_entries scenario))) ->
            ingredients_of rid (recipe_ingredients scenario)
            = ingredients_of rid (recipe_ingredients with_saffron)).
  { intros rid [<-|[<-|[]]]; reflexivity. }
  split; [reflexivity|]. split; [reflexivity|].
  exact (only_referenced_recipes_matter scenario with_saffron
           "P" "2024-01-01" "2024-01-07" alice alice eq_refl eq_refl
           (Samples.fault_free_never _ _ _) (Samples.fault_free_never _ _ _)
           eq_refl Hsame).
Defined.

(** The plan whose only entry in the range has no recipe. *)
Lemma zero_items_iff_nothing_visited_witness :
  call no_recipes = (Returned (mkSummary true "list-0" 0), snd (call no_recipes))
  /\ visited no_recipes "P" "2024-01-01" "2024-01-07" = []
  /\ length (new_lists no_recipes (snd (call no_recipes))) = 1.
Proof.
  assert (Hrun : call no_recipes
                 = (Returned (mkSummary true "list-0" 0), snd (call no_recipes)))
    by (vm_compute; reflexivity).
  split; [exact Hrun|].
  split; [exact (proj1 (proj1 (zero_items_iff_nothing_visited no_recipes
                                 "P" "2024-01-01" "2024-01-07" _ _ Hrun))
                  eq_refl)|].
  exact (proj1 (proj2 (proj2 (zero_items_iff_nothing_visited no_recipes
                                "P" "2024-01-01" "2024-01-07" _ _ Hrun)))).
Defined.

End MoreSamples.
